(** * polar.sh-dash: the product payload builder and the request gateway

    A shallow embedding of [src/polar_sh_dash.py]: the helpers [_is_uuid]
    and [_as_int_cents], the validation routine
    [build_product_payload_simple], the HTTP helper
    [PolarAPI._make_request] and the error test of [format_json_output].

    Conventions of the embedding.
    - A Python [str] is a [string], one [ascii] per character; the
      characters covered are the code points 0..255.
    - A Python [dict] with string keys is a [gmap string _]; JSON-like
      values are the type [json].
    - [raise ValueError(..)] in the builder is the left injection of a
      sum, with one constructor of [ValueError] per message of the source.
    - The network is an event of a small free monad [io]; the answer of
      the event is what the [requests] call does (return a response or
      raise a [RequestException]).
    - Decoding JSON, in [response.json()] and in [json.loads], returns
      the value, raises the decode error of the call, or raises an
      exception of another class (a [RecursionError] on a text nested
      too deeply); the last passes through every handler that names
      [RequestException] or [JSONDecodeError] and is caught by
      [except Exception] alone. *)

From Stdlib Require Import ZArith Ascii String List Bool Lia.
From stdpp Require Import base option list gmap strings pretty.

Open Scope string_scope.
Open Scope Z_scope.

(** ** Python strings *)

Module PyStr.

Definition code (c : ascii) : Z := Z.of_nat (nat_of_ascii c).

(** [str.isspace] on the code points 0..255: TAB..CR, FS..US, space,
    NEL (0x85) and NBSP (0xA0). *)
Definition isspace (c : ascii) : bool :=
  let n := code c in
  ((9 <=? n) && (n <=? 13)) || ((28 <=? n) && (n <=? 32))
  || (n =? 133) || (n =? 160).

(** [s.lstrip()] *)
Fixpoint lstrip (s : string) : string :=
  match s with
  | String c s' => if isspace c then lstrip s' else s
  | EmptyString => EmptyString
  end.

(** [s.rstrip()] *)
Fixpoint rstrip (s : string) : string :=
  match s with
  | EmptyString => EmptyString
  | String c s' =>
      match rstrip s' with
      | EmptyString => if isspace c then EmptyString else String c EmptyString
      | r => String c r
      end
  end.

(** [s.strip()] *)
Definition strip (s : string) : string := lstrip (rstrip s).

(** [s.lstrip(c)] and [s.rstrip(c)] for a one-character argument. *)
Fixpoint lstrip_char (x : ascii) (s : string) : string :=
  match s with
  | String c s' => if Ascii.eqb c x then lstrip_char x s' else s
  | EmptyString => EmptyString
  end.

Fixpoint rstrip_char (x : ascii) (s : string) : string :=
  match s with
  | EmptyString => EmptyString
  | String c s' =>
      match rstrip_char x s' with
      | EmptyString => if Ascii.eqb c x then EmptyString else String c EmptyString
      | r => String c r
      end
  end.

(** [len(s)] *)
Definition len (s : string) : Z := Z.of_nat (String.length s).

(** [s.upper()] on the code points 0..255: a-z and the letters
    0xE0..0xFE other than the division sign move down by 32, sharp s
    becomes "SS".  The uppercase of the micro sign (0xB5) and of y with
    diaeresis (0xFF) lies above 255; they are left as they are, which
    like their uppercase is no ASCII letter. *)
Definition upper_char (c : ascii) : string :=
  let n := code c in
  if ((97 <=? n) && (n <=? 122))
     || ((224 <=? n) && (n <=? 254) && negb (n =? 247))
  then String (ascii_of_nat (Z.to_nat (n - 32))) EmptyString
  else if n =? 223 then "SS"
  else String c EmptyString.

Fixpoint upper (s : string) : string :=
  match s with
  | EmptyString => EmptyString
  | String c s' => upper_char c ++ upper s'
  end.

(** [s.lower()] restricted to what the float grammar needs: ASCII. *)
Definition lower_ascii_char (c : ascii) : ascii :=
  let n := code c in
  if (65 <=? n) && (n <=? 90) then ascii_of_nat (Z.to_nat (n + 32)) else c.

Fixpoint lower_ascii (s : string) : string :=
  match s with
  | EmptyString => EmptyString
  | String c s' => String (lower_ascii_char c) (lower_ascii s')
  end.

(** Truthiness of a string-or-None: [if s:]. *)
Definition truthy (s : option string) : bool :=
  match s with
  | Some (String _ _) => true
  | _ => false
  end.

End PyStr.

(** ** JSON-like values *)

#[local] Set Warnings "-register-all".

Inductive json : Type :=
  | JNull
  | JBool (b : bool)
  | JInt (z : Z)
  | JStr (s : string)
  | JList (l : list json)
  | JObj (m : gmap string json).

(** [None] of an optional value goes to [null]. *)
Definition opt_json {A} (f : A -> json) (o : option A) : json :=
  match o with
  | Some a => f a
  | None => JNull
  end.

(** ** Python numbers: [float(s)] and [int(x)] *)

Module PyNum.
Import PyStr.

(** A binary64 value: a finite value is [(-1)^neg * m * 2^e]. *)
Inductive pyfloat : Type :=
  | Finite (neg : bool) (m e : Z)
  | Inf (neg : bool)
  | NaN.

Definition is_digit (c : ascii) : bool := (48 <=? code c) && (code c <=? 57).
Definition digit_val (c : ascii) : Z := code c - 48.

(** The check of the interpreter on underscores before a number is
    read: an underscore is allowed only after a digit and only before a
    digit; the underscores are then dropped.  [prev] is the previous
    character, if any. *)
Fixpoint drop_underscores (prev : option ascii) (s : string) : option string :=
  match s with
  | EmptyString =>
      match prev with
      | Some "_"%char => None
      | _ => Some EmptyString
      end
  | String c s' =>
      if Ascii.eqb c "_" then
        match prev with
        | Some p => if is_digit p then drop_underscores (Some c) s' else None
        | None => None
        end
      else
        match prev with
        | Some "_"%char =>
            if is_digit c then String c <$> drop_underscores (Some c) s' else None
        | _ => String c <$> drop_underscores (Some c) s'
        end
  end.

(** A run of digits: the value accumulated, the number of digits read
    and the rest of the text. *)
Fixpoint digits (acc : Z) (n : Z) (s : string) : Z * Z * string :=
  match s with
  | String c s' =>
      if is_digit c then digits (10 * acc + digit_val c) (n + 1) s'
      else (acc, n, s)
  | EmptyString => (acc, n, s)
  end.

Definition sign (s : string) : bool * string :=
  match s with
  | String "-" s' => (true, s')
  | String "+" s' => (false, s')
  | _ => (false, s)
  end.

(** The exponent part, [("e" | "E") [sign] digitpart], up to the end of
    the text; no exponent part is exponent 0. *)
Definition exponent (s : string) : option Z :=
  match s with
  | EmptyString => Some 0
  | String c s' =>
      if Ascii.eqb (lower_ascii_char c) "e" then
        let '(neg, s1) := sign s' in
        match digits 0 0 s1 with
        | (v, n, EmptyString) =>
            if 0 <? n then Some (if neg then - v else v) else None
        | _ => None
        end
      else None
  end.

(** [number [exponent]] with
    [number ::= [digitpart] "." digitpart | digitpart ["."]]:
    the decimal value read is [m * 10^x]. *)
Definition decimal (s : string) : option (Z * Z) :=
  let '(m1, n1, s1) := digits 0 0 s in
  let '(m, n2, s2) :=
    match s1 with
    | String "." s1' => digits m1 0 s1'
    | _ => (m1, 0, s1)
    end in
  if 0 <? n1 + n2 then
    x ← exponent s2; Some (m, x - n2)
  else None.

(** Round the positive rational [p / q] to the nearest binary64 value,
    ties to even: the result is [N * 2^k] with [N <= 2^53], or an
    overflow. *)
Definition floor_log2 (p q : Z) : Z :=
  let d := Z.log2 p - Z.log2 q in
  if p * 2 ^ Z.max (- d) 0 <? q * 2 ^ Z.max d 0 then d - 1 else d.

Definition round_half_even (num den : Z) : Z :=
  let quo := num / den in
  let rem := num mod den in
  if 2 * rem <? den then quo
  else if den <? 2 * rem then quo + 1
  else if Z.even quo then quo else quo + 1.

Definition round_binary64 (p q : Z) : option (Z * Z) :=
  let k := Z.max (floor_log2 p q) (-1022) - 52 in
  let N := round_half_even (p * 2 ^ Z.max (- k) 0) (q * 2 ^ Z.max k 0) in
  if (0 <=? k) && (2 ^ 1024 <=? N * 2 ^ k) then None else Some (N, k).

Definition float_of_decimal (neg : bool) (m x : Z) : pyfloat :=
  if m =? 0 then Finite neg 0 0
  else
    match round_binary64 (m * 10 ^ Z.max x 0) (10 ^ Z.max (- x) 0) with
    | Some (N, k) => Finite neg N k
    | None => Inf neg
    end.

(** [float(s)] for a [str]; [None] is the [ValueError] of a text that is
    no number.  [float] trims the text itself before it reads it. *)
Definition float (s : string) : option pyfloat :=
  s0 ← drop_underscores None (strip s);
  let '(neg, s1) := sign s0 in
  let w := lower_ascii s1 in
  if String.eqb w "inf" || String.eqb w "infinity" then Some (Inf neg)
  else if String.eqb w "nan" then Some NaN
  else '(m, x) ← decimal s1; Some (float_of_decimal neg m x).

(** [int(x)] for a float: truncation toward zero; [None] is the
    [OverflowError] on an infinity and the [ValueError] on a NaN. *)
Definition int (x : pyfloat) : option Z :=
  match x with
  | Finite neg m e =>
      let a := if 0 <=? e then m * 2 ^ e else m / 2 ^ (- e) in
      Some (if neg then - a else a)
  | Inf _ | NaN => None
  end.

End PyNum.

(** ** Values of the amount fields *)

(** The amount fields are annotated [Optional[str]] and receive what the
    number widgets hold: [None], a [str] or an [int]. *)
Inductive pyval : Type :=
  | PNone
  | PStr (s : string)
  | PInt (z : Z).

(** [str(v)] for a value that is not [None].  The decimal text of an
    [int] is total here: the interpreter's limit on the number of digits
    of a converted [int] (4300 by default) is not part of the model. *)
Definition py_str (v : pyval) : string :=
  match v with
  | PNone => "None"
  | PStr s => s
  | PInt z => pretty z
  end.

(** [UUID_RE] and [_is_uuid]. *)

Inductive char_class : Type :=
  | Hex | Dash | Version | Variant.

Definition in_class (k : char_class) (c : ascii) : bool :=
  let n := PyStr.code c in
  let digit := (48 <=? n) && (n <=? 57) in
  let af := ((97 <=? n) && (n <=? 102)) || ((65 <=? n) && (n <=? 70)) in
  match k with
  | Hex => digit || af
  | Dash => n =? 45
  | Version => (49 <=? n) && (n <=? 53)
  | Variant => (n =? 56) || (n =? 57) || (n =? 97) || (n =? 98) || (n =? 65) || (n =? 66)
  end.

(** The body of the pattern between [^] and [$]:
    [[0-9a-fA-F]{8}-[0-9a-fA-F]{4}-[1-5][0-9a-fA-F]{3}-[89abAB][0-9a-fA-F]{3}-[0-9a-fA-F]{12}]. *)
Definition UUID_RE : list char_class :=
  replicate 8 Hex ++ [Dash] ++ replicate 4 Hex ++ [Dash]
  ++ [Version] ++ replicate 3 Hex ++ [Dash]
  ++ [Variant] ++ replicate 3 Hex ++ [Dash] ++ replicate 12 Hex.

(** The text is exactly one character of each class, in order. *)
Fixpoint fullmatch (p : list char_class) (s : string) : bool :=
  match p, s with
  | [], EmptyString => true
  | k :: p', String c s' => in_class k c && fullmatch p' s'
  | _, _ => false
  end.

(** [re.match] of [^ body $]: [$] matches at the end of the text and
    also just before a newline that ends the text. *)
Fixpoint re_match (p : list char_class) (s : string) : bool :=
  match p, s with
  | [], EmptyString => true
  | [], String c EmptyString => Ascii.eqb c "010"
  | k :: p', String c s' => in_class k c && re_match p' s'
  | _, _ => false
  end.

Definition _is_uuid (s : option string) : bool :=
  re_match UUID_RE (PyStr.strip (default "" s)).

(** [_as_int_cents]: [None] for a missing or blank value and for every
    exception of the conversion. *)
Definition _as_int_cents (v : pyval) : option Z :=
  match v with
  | PNone => None
  | _ =>
      if String.eqb (PyStr.strip (py_str v)) "" then None
      else x ← PyNum.float (PyStr.strip (py_str v)); PyNum.int x
  end.

(** ** Validation errors and the exception monad of the builder *)

(** One constructor per [raise ValueError(..)] of
    [build_product_payload_simple], in the order of the source:
    - [NameTooShort]: "Name minimal 3 karakter."
    - [InvalidPlan]: "Plan tidak valid (one_time | month | year)."
    - [InvalidPriceType]: "Tipe harga tidak valid (fixed | custom | free)."
    - [FixedAmountInvalid]: "Fixed price (cents) wajib diisi, min 50."
    - [CustomBelowFifty]: "Custom price: minimum/maximum/preset harus ≥ 50 bila diisi."
    - [CustomMinExceedsMax]: "Custom price: minimum tidak boleh > maximum."
    - [OneTimeMetered]: "Produk one-time TIDAK boleh punya metered price."
    - [MeterIdInvalid]: "meter_id harus UUID valid."
    - [UnitAmountMissing]: "unit_amount (cents) wajib diisi untuk metered."
    - [CapNegative]: "cap_amount tidak boleh negatif."
    - [OrgIdInvalid]: "organization_id harus UUID valid." *)
Inductive ValueError : Type :=
  | NameTooShort
  | InvalidPlan
  | InvalidPriceType
  | FixedAmountInvalid
  | CustomBelowFifty
  | CustomMinExceedsMax
  | OneTimeMetered
  | MeterIdInvalid
  | UnitAmountMissing
  | CapNegative
  | OrgIdInvalid.

Inductive except (A : Type) : Type :=
  | Ok (a : A)
  | Raise (e : ValueError).
Arguments Ok {A} a.
Arguments Raise {A} e.

#[global] Instance except_ret : MRet except := fun A a => Ok a.
#[global] Instance except_bind : MBind except := fun A B f m =>
  match m with
  | Ok a => f a
  | Raise e => Raise e
  end.

(** [if c: raise ValueError(e)] *)
Definition raise_if (c : bool) (e : ValueError) : except unit :=
  if c then Raise e else Ok ().

(** ** The product payload builder *)

Abbreviation dict := (gmap string json).

(** [x is not None and x < n] *)
Definition below (x : option Z) (n : Z) : bool :=
  match x with
  | Some c => c <? n
  | None => false
  end.

(** [l.append(x)] *)
Definition append {A} (l : list A) (x : A) : list A := (l ++ [x])%list.

(** [if x is not None: d[k] = x] *)
Definition set_if_some (k : string) (x : option Z) (d : dict) : dict :=
  match x with
  | Some c => <[k := JInt c]> d
  | None => d
  end.

(** The arguments annotated [str] on which the source tests [not s],
    [s or ..] or [if s] are a string or [None]; [plan] and [price_type]
    are only compared with literals. *)
Definition build_product_payload_simple
    (name description : option string) (plan price_type : string)
    (fixed_amount custom_min custom_max custom_preset : pyval)
    (org_id : option string) (enable_metered : bool)
    (meter_id : option string) (unit_amount cap_amount : pyval)
  : except dict :=
  _ ← raise_if (negb (PyStr.truthy name)
                || (PyStr.len (PyStr.strip (default "" name)) <? 3))
        NameTooShort;
  recurring_interval ←
    (if String.eqb plan "one_time" then Ok None
     else if String.eqb plan "month" || String.eqb plan "year" then Ok (Some plan)
     else Raise InvalidPlan);
  let prices : list dict := [] in
  _ ← raise_if (negb (String.eqb price_type "fixed" || String.eqb price_type "custom"
                      || String.eqb price_type "free"))
        InvalidPriceType;
  prices ←
    (if String.eqb price_type "fixed" then
       let cents := _as_int_cents fixed_amount in
       match cents with
       | None => Raise FixedAmountInvalid
       | Some c =>
           if c <? 50 then Raise FixedAmountInvalid
           else Ok (append prices {[ "amount_type" := JStr "fixed";
                                  "price_currency" := JStr "usd";
                                  "price_amount" := JInt c ]})
       end
     else if String.eqb price_type "custom" then
       let min_c := _as_int_cents custom_min in
       let max_c := _as_int_cents custom_max in
       let preset_c := _as_int_cents custom_preset in
       _ ← raise_if (below min_c 50 || below max_c 50 || below preset_c 50)
             CustomBelowFifty;
       _ ← raise_if (match min_c, max_c with
                     | Some lo, Some hi => hi <? lo
                     | _, _ => false
                     end)
             CustomMinExceedsMax;
       let price_obj : dict :=
         {[ "amount_type" := JStr "custom"; "price_currency" := JStr "usd" ]} in
       let price_obj := set_if_some "minimum_amount" min_c price_obj in
       let price_obj := set_if_some "maximum_amount" max_c price_obj in
       let price_obj := set_if_some "preset_amount" preset_c price_obj in
       Ok (append prices price_obj)
     else Ok (append prices {[ "amount_type" := JStr "free" ]}));
  prices ←
    (if enable_metered then
       _ ← raise_if (bool_decide (recurring_interval = None)) OneTimeMetered;
       _ ← raise_if (negb (PyStr.truthy meter_id) || negb (_is_uuid meter_id))
             MeterIdInvalid;
       _ ← raise_if (match unit_amount with
                     | PNone => true
                     | _ => String.eqb (PyStr.strip (py_str unit_amount)) ""
                     end)
             UnitAmountMissing;
       let metered : dict :=
         {[ "amount_type" := JStr "metered_unit";
            "meter_id" := JStr (PyStr.strip (default "" meter_id));
            "price_currency" := JStr "usd";
            "unit_amount" := JStr (PyStr.strip (py_str unit_amount)) ]} in
       let cap := _as_int_cents cap_amount in
       metered ←
         match cap with
         | Some c =>
             _ ← raise_if (c <? 0) CapNegative;
             Ok (<["cap_amount" := JInt c]> metered)
         | None => Ok metered
         end;
       Ok (append prices metered)
     else Ok prices);
  let payload : dict :=
    {[ "name" := JStr (PyStr.strip (default "" name));
       "description" := (if PyStr.truthy description
                         then JStr (default "" description) else JNull);
       "recurring_interval" := opt_json JStr recurring_interval;
       "prices" := JList (JObj <$> prices) ]} in
  payload ←
    (if PyStr.truthy org_id && PyStr.truthy (PyStr.strip <$> org_id) then
       _ ← raise_if (negb (_is_uuid org_id)) OrgIdInvalid;
       Ok (<["organization_id" := JStr (PyStr.strip (default "" org_id))]> payload)
     else Ok payload);
  Ok payload.

(** ** The request gateway *)

Inductive verb : Type := GET | POST | PUT | DELETE.

(** What one call of [requests.get/post/put/delete] sends. *)
Record Request : Type := {
  req_verb : verb;
  req_url : string;
  req_headers : gmap string string;
  req_params : option json;
  req_json : option json;
}.

(** What decoding a text as JSON does, in [response.json()] and in
    [json.loads]: it returns the decoded value, it raises the decode
    error of the call, or it raises another exception, such as the
    [RecursionError] of a body nested too deeply, with [str(e)] the
    message. *)
Inductive decoded : Type :=
  | Decoded (j : json)
  | DecodeError (msg : string)
  | DecodeRaises (msg : string).

(** The attributes of a [requests.Response] the helper reads. *)
Record Response : Type := {
  status_code : Z;
  reason : string;
  url : string;
  text : string;
  json_body : decoded;
}.

(** A [requests.exceptions.RequestException]: [str(e)] and [e.response]. *)
Record RequestException : Type := {
  exc_str : string;
  exc_response : option Response;
}.

(** Programs that talk to the network: return a value, raise a
    [RequestException], raise an exception that is no [RequestException]
    ([Abort], with [str(e)]), or send a request and go on with what the
    [requests] call does, which is to raise or to return a response. *)
Inductive io (A : Type) : Type :=
  | Return (a : A)
  | Throw (e : RequestException)
  | Abort (msg : string)
  | Send (r : Request) (k : RequestException + Response -> io A).
Arguments Return {A} a.
Arguments Throw {A} e.
Arguments Abort {A} msg.
Arguments Send {A} r k.

Fixpoint io_bind {A B} (f : A -> io B) (m : io A) : io B :=
  match m with
  | Return a => f a
  | Throw e => Throw e
  | Abort msg => Abort msg
  | Send r k => Send r (fun a => io_bind f (k a))
  end.

#[global] Instance io_mret : MRet io := fun A a => Return a.
#[global] Instance io_mbind : MBind io := fun A B f m => io_bind f m.

(** [try: m  except requests.exceptions.RequestException as e: h e];
    an exception that is no [RequestException] passes through. *)
Fixpoint try_except {A} (m : io A) (h : RequestException -> io A) : io A :=
  match m with
  | Return a => Return a
  | Throw e => h e
  | Abort msg => Abort msg
  | Send r k => Send r (fun a => try_except (k a) h)
  end.

(** [try: m  except Exception as e: h (str(e))] *)
Fixpoint try_except_Exception {A} (m : io A) (h : string -> io A) : io A :=
  match m with
  | Return a => Return a
  | Throw e => h (exc_str e)
  | Abort msg => h msg
  | Send r k => Send r (fun a => try_except_Exception (k a) h)
  end.

(** An exception that leaves a program, and its [str(e)]. *)
Inductive raised : Type :=
  | Request_exception (e : RequestException)
  | Other_exception (msg : string).

Definition raised_text (x : raised) : string :=
  match x with
  | Request_exception e => exc_str e
  | Other_exception msg => msg
  end.

(** A network answers every request; [run] gives the outcome of a program
    on a network, a value returned or an exception raised, and the
    requests it sent, in order. *)
Definition network : Type := Request -> RequestException + Response.

Fixpoint run {A} (net : network) (m : io A)
  : (raised + A) * list Request :=
  match m with
  | Return a => (inr a, [])
  | Throw e => (inl (Request_exception e), [])
  | Abort msg => (inl (Other_exception msg), [])
  | Send r k => let '(out, sent) := run net (k (net r)) in (out, r :: sent)
  end.

Module requests.

Definition call (r : Request) : io Response :=
  Send r (fun a => match a with
                   | inl e => Throw e
                   | inr resp => Return resp
                   end).

(** [requests.get(url, headers=headers, params=params)] *)
Definition get (u : string) (headers : gmap string string)
    (params : option json) : io Response :=
  call {| req_verb := GET; req_url := u; req_headers := headers;
          req_params := params; req_json := None |}.

(** [requests.post(url, headers=headers, json=json)] *)
Definition post (u : string) (headers : gmap string string)
    (body : option json) : io Response :=
  call {| req_verb := POST; req_url := u; req_headers := headers;
          req_params := None; req_json := body |}.

(** [requests.put(url, headers=headers, json=json)] *)
Definition put (u : string) (headers : gmap string string)
    (body : option json) : io Response :=
  call {| req_verb := PUT; req_url := u; req_headers := headers;
          req_params := None; req_json := body |}.

(** [requests.delete(url, headers=headers)] *)
Definition delete (u : string) (headers : gmap string string) : io Response :=
  call {| req_verb := DELETE; req_url := u; req_headers := headers;
          req_params := None; req_json := None |}.

(** [Response.raise_for_status] of the library: an [HTTPError] that
    carries the response, for the statuses 400..599 and no other. *)
Definition http_error_msg (r : Response) : string :=
  if (400 <=? status_code r) && (status_code r <? 500) then
    pretty (status_code r) ++ " Client Error: " ++ reason r
    ++ " for url: " ++ url r
  else if (500 <=? status_code r) && (status_code r <? 600) then
    pretty (status_code r) ++ " Server Error: " ++ reason r
    ++ " for url: " ++ url r
  else "".

Definition raise_for_status (r : Response) : io unit :=
  if String.eqb (http_error_msg r) "" then Return ()
  else Throw {| exc_str := http_error_msg r; exc_response := Some r |}.

(** [Response.json] of the library (2.27 and later): a body that does
    not decode raises [requests.exceptions.JSONDecodeError], a
    [RequestException] built without a response; an exception of the
    decoder that is no decode error, such as [RecursionError], is raised
    as it is. *)
Definition json (r : Response) : io json :=
  match json_body r with
  | Decoded j => Return j
  | DecodeError msg => Throw {| exc_str := msg; exc_response := None |}
  | DecodeRaises msg => Abort msg
  end.

End requests.

Record PolarAPI : Type := {
  access_token : string;
  base_url : string;
  headers : gmap string string;
}.

(** [PolarAPI.__init__] *)
Definition PolarAPI_init (token : string) (sandbox : bool) : PolarAPI :=
  {| access_token := token;
     base_url := if sandbox then "https://sandbox-api.polar.sh/v1"
                 else "https://api.polar.sh/v1";
     headers := {[ "Authorization" := "Bearer " ++ token;
                   "Content-Type" := "application/json" ]} |}.

(** [getattr(e.response, name, None)] for the two attributes read. *)
Definition getattr_status_code (r : option Response) : json :=
  opt_json (fun x => JInt (status_code x)) r.
Definition getattr_text (r : option Response) : json :=
  opt_json (fun x => JStr (text x)) r.

(** [PolarAPI._make_request] *)
Definition _make_request (self : PolarAPI) (method endpoint : string)
    (data : option json) : io json :=
  let u := PyStr.rstrip_char "/" (base_url self) ++ "/"
           ++ PyStr.lstrip_char "/" endpoint in
  try_except
    (match
       (if String.eqb (PyStr.upper method) "GET" then
          Some (requests.get u (headers self) data)
        else if String.eqb (PyStr.upper method) "POST" then
          Some (requests.post u (headers self) data)
        else if String.eqb (PyStr.upper method) "PUT" then
          Some (requests.put u (headers self) data)
        else if String.eqb (PyStr.upper method) "DELETE" then
          Some (requests.delete u (headers self))
        else None)
     with
     | None => Return (JObj {[ "error" := JStr ("Unsupported method " ++ method) ]})
     | Some request =>
         response ← request;
         _ ← requests.raise_for_status response;
         if String.eqb (PyStr.strip (text response)) "" then
           Return (JObj {[ "status" := JInt (status_code response) ]})
         else requests.json response
     end)
    (fun e =>
       Return (JObj {[ "error" := JStr (exc_str e);
                       "status_code" := getattr_status_code (exc_response e);
                       "body" := getattr_text (exc_response e) ]})).

(** The test [isinstance(data, dict) and "error" in data] by which
    [format_json_output] tells an error record from a success payload. *)
Definition is_error_record (data : json) : bool :=
  match data with
  | JObj d => bool_decide (is_Some (d !! "error"))
  | _ => false
  end.

(** ** The rules of the specification, one by one

    The validation rules of the builder in the words of the
    specification, each on its own, and the payload of an input that
    breaks none of them.  [build_product_payload_simple] is compared with
    them below. *)

Module Rules.

(** A blank text: empty after trimming. *)
Definition blank (s : string) : bool := String.eqb (PyStr.strip s) "".

(** A value that is supplied: present and not blank. *)
Definition supplied (v : pyval) : bool :=
  match v with
  | PNone => false
  | _ => negb (blank (py_str v))
  end.

Definition supplied_str (s : option string) : bool :=
  match s with
  | Some x => negb (blank x)
  | None => false
  end.

(** name: required, trimmed length at least 3. *)
Definition name (n : option string) : option ValueError :=
  match n with
  | Some x => if 3 <=? PyStr.len (PyStr.strip x) then None else Some NameTooShort
  | None => Some NameTooShort
  end.

(** plan: one of one_time, month, year. *)
Definition plan (p : string) : option ValueError :=
  if bool_decide (p ∈ ["one_time"; "month"; "year"]) then None
  else Some InvalidPlan.

(** price type and its fields. *)
Definition price (price_type : string)
    (fixed_amount custom_min custom_max custom_preset : pyval)
  : option ValueError :=
  if bool_decide (price_type = "fixed") then
    match _as_int_cents fixed_amount with
    | Some c => if 50 <=? c then None else Some FixedAmountInvalid
    | None => Some FixedAmountInvalid
    end
  else if bool_decide (price_type = "custom") then
    if below (_as_int_cents custom_min) 50
       || below (_as_int_cents custom_max) 50
       || below (_as_int_cents custom_preset) 50
    then Some CustomBelowFifty
    else
      match _as_int_cents custom_min, _as_int_cents custom_max with
      | Some lo, Some hi => if lo <=? hi then None else Some CustomMinExceedsMax
      | _, _ => None
      end
  else if bool_decide (price_type = "free") then None
  else Some InvalidPriceType.

(** the metered block. *)
Definition metered (p : string) (enable_metered : bool)
    (meter_id : option string) (unit_amount cap_amount : pyval)
  : option ValueError :=
  if enable_metered then
    if bool_decide (p = "one_time") then Some OneTimeMetered
    else if negb (_is_uuid meter_id) then Some MeterIdInvalid
    else if negb (supplied unit_amount) then Some UnitAmountMissing
    else if below (_as_int_cents cap_amount) 0 then Some CapNegative
    else None
  else None.

(** organization id: if supplied, a UUID. *)
Definition org (org_id : option string) : option ValueError :=
  if supplied_str org_id && negb (_is_uuid org_id) then Some OrgIdInvalid
  else None.

(** The first rule violated, in the order name, plan, price-type fields,
    metered block, organization id. *)
Definition first_violation
    (n description : option string) (p price_type : string)
    (fixed_amount custom_min custom_max custom_preset : pyval)
    (org_id : option string) (enable_metered : bool)
    (meter_id : option string) (unit_amount cap_amount : pyval)
  : option ValueError :=
  match name n with Some e => Some e | None =>
  match plan p with Some e => Some e | None =>
  match price price_type fixed_amount custom_min custom_max custom_preset with
  | Some e => Some e | None =>
  match metered p enable_metered meter_id unit_amount cap_amount with
  | Some e => Some e | None =>
  org org_id
  end end end end.

(** The amount as the specification words it: an integer is itself,
    a text is its decimal value truncated toward zero. *)
Definition exact_cents (v : pyval) : option Z :=
  match v with
  | PNone => None
  | PInt z => Some z
  | PStr s =>
      s0 ← PyNum.drop_underscores None (PyStr.strip s);
      let '(neg, s1) := PyNum.sign s0 in
      '(m, x) ← PyNum.decimal s1;
      let a := (m * 10 ^ Z.max x 0) / 10 ^ Z.max (- x) 0 in
      Some (if neg then - a else a)
  end.

(** The base price specification of a valid input. *)
Definition base_spec (price_type : string)
    (fixed_amount custom_min custom_max custom_preset : pyval) : dict :=
  if bool_decide (price_type = "fixed") then
    {[ "amount_type" := JStr "fixed"; "price_currency" := JStr "usd";
       "price_amount" := opt_json JInt (_as_int_cents fixed_amount) ]}
  else if bool_decide (price_type = "custom") then
    set_if_some "preset_amount" (_as_int_cents custom_preset)
      (set_if_some "maximum_amount" (_as_int_cents custom_max)
         (set_if_some "minimum_amount" (_as_int_cents custom_min)
            {[ "amount_type" := JStr "custom"; "price_currency" := JStr "usd" ]}))
  else {[ "amount_type" := JStr "free" ]}.

(** The metered price specification of a valid input. *)
Definition metered_spec (meter_id : option string)
    (unit_amount cap_amount : pyval) : dict :=
  set_if_some "cap_amount" (_as_int_cents cap_amount)
    {[ "amount_type" := JStr "metered_unit";
       "meter_id" := JStr (PyStr.strip (default "" meter_id));
       "price_currency" := JStr "usd";
       "unit_amount" := JStr (PyStr.strip (py_str unit_amount)) ]}.

(** The price sequence: the base specification, then the metered one if
    metered pricing is enabled. *)
Definition prices_of (price_type : string)
    (fixed_amount custom_min custom_max custom_preset : pyval)
    (enable_metered : bool) (meter_id : option string)
    (unit_amount cap_amount : pyval) : list dict :=
  base_spec price_type fixed_amount custom_min custom_max custom_preset
  :: (if enable_metered then [metered_spec meter_id unit_amount cap_amount]
      else []).

(** The payload before the organization id is attached. *)
Definition payload_core
    (n description : option string) (p : string) (prices : list dict) : dict :=
  {[ "name" := JStr (PyStr.strip (default "" n));
     "description" := (if PyStr.truthy description
                       then JStr (default "" description) else JNull);
     "recurring_interval" := (if bool_decide (p = "one_time") then JNull
                              else JStr p);
     "prices" := JList (JObj <$> prices) ]}.

(** The payload of a valid input. *)
Definition payload_of
    (n description : option string) (p price_type : string)
    (fixed_amount custom_min custom_max custom_preset : pyval)
    (org_id : option string) (enable_metered : bool)
    (meter_id : option string) (unit_amount cap_amount : pyval) : dict :=
  let core :=
    payload_core n description p
      (prices_of price_type fixed_amount custom_min custom_max custom_preset
         enable_metered meter_id unit_amount cap_amount) in
  if supplied_str org_id
  then <["organization_id" := JStr (PyStr.strip (default "" org_id))]> core
  else core.

End Rules.

(** ** Sample inputs *)

Module Sample.

Definition uuid : string := "123e4567-e89b-42d3-a456-426614174000".

Definition api : PolarAPI := PolarAPI_init "polar_oat_token" true.

Definition response (code : Z) (why body : string) (j : decoded) : Response :=
  {| status_code := code; reason := why;
     url := "https://sandbox-api.polar.sh/v1/products/";
     text := body; json_body := j |}.


(** A network that answers every request alike. *)
Definition always (a : RequestException + Response) : network := fun _ => a.

(** A 200 response whose body is an array nested 100000 deep, which the
    decoder gives up on with a [RecursionError]. *)
Definition nested_text : string :=
  N.iter 100000 (String "[") (N.iter 100000 (String "]") "").
Definition recursion_msg : string :=
  "maximum recursion depth exceeded while decoding a JSON array "
  ++ "from a unicode string".
Definition nested : Response :=
  response 200 "OK" nested_text (DecodeRaises recursion_msg).

End Sample.

(** ** The results of the gateway, case by case *)

Module Gateway.

(** A method the helper dispatches on. *)
Definition supported (method : string) : bool :=
  bool_decide (PyStr.upper method ∈ ["GET"; "POST"; "PUT"; "DELETE"]).

(** The error record: message, optional status code, optional raw body. *)
Definition error_record (msg : string) (resp : option Response) : json :=
  JObj {[ "error" := JStr msg;
          "status_code" := getattr_status_code resp;
          "body" := getattr_text resp ]}.

(** The local error of a method that is not supported. *)
Definition unsupported (method : string) : json :=
  JObj {[ "error" := JStr ("Unsupported method " ++ method) ]}.

(** A status [raise_for_status] raises on. *)
Definition is_http_error (r : Response) : bool :=
  (400 <=? status_code r) && (status_code r <? 600).

(** The answers on which an exception leaves the helper, with its
    message: a response with no error status and a body that is not blank,
    whose decoding raises an exception that is no [RequestException]. *)
Definition escapes (a : RequestException + Response) : option string :=
  match a with
  | inl _ => None
  | inr r =>
      if is_http_error r || Rules.blank (text r) then None
      else
        match json_body r with
        | DecodeRaises msg => Some msg
        | _ => None
        end
  end.

(** The result for each answer of the network to the one request on
    which the helper returns; where an exception escapes there is no
    result, and [JNull] stands in. *)
Definition result_of (a : RequestException + Response) : json :=
  match a with
  | inl e => error_record (exc_str e) (exc_response e)
  | inr r =>
      if is_http_error r then
        error_record (requests.http_error_msg r) (Some r)
      else if Rules.blank (text r) then
        JObj {[ "status" := JInt (status_code r) ]}
      else
        match json_body r with
        | Decoded j => j
        | DecodeError msg => error_record msg None
        | DecodeRaises _ => JNull
        end
  end.

(** The outcome of the helper for each answer: the exception that
    escapes, or the result. *)
Definition outcome_of (a : RequestException + Response) : raised + json :=
  match escapes a with
  | Some msg => inl (Other_exception msg)
  | None => inr (result_of a)
  end.


End Gateway.

(** ** The methods of the client *)

Module Client.

(** [{"organization_id": organization_id} if organization_id else {}] *)
Definition org_params (organization_id : option string) : json :=
if PyStr.truthy organization_id
then JObj {[ "organization_id" := JStr (default "" organization_id) ]}
else JObj ∅.

Definition list_organizations (self : PolarAPI) : io json :=
_make_request self "GET" "/organizations/" None.

Definition get_organization (self : PolarAPI) (organization_id : string) : io json :=
_make_request self "GET" ("/organizations/" ++ organization_id ++ "/") None.

Definition list_products (self : PolarAPI) (organization_id : option string) : io json :=
let params := org_params organization_id in
_make_request self "GET" "/products/" (Some params).


Definition get_product (self : PolarAPI) (product_id : string) : io json :=
_make_request self "GET" ("/products/" ++ product_id ++ "/") None.

Definition create_checkout (self : PolarAPI) (product_ids : list string)
  (success_url : string) (customer_email : option string)
  (allow_discount_codes require_billing_address is_business_customer : bool)
  : io json :=
let data : dict :=
  {[ "products" := JList (JStr <$> product_ids);
     "success_url" := JStr success_url;
     "allow_discount_codes" := JBool allow_discount_codes;
     "require_billing_address" := JBool require_billing_address;
     "is_business_customer" := JBool is_business_customer ]} in
let data :=
  if PyStr.truthy customer_email
  then <["customer_email" := JStr (default "" customer_email)]> data
  else data in
_make_request self "POST" "/checkouts/" (Some (JObj data)).

Definition list_subscriptions (self : PolarAPI) (organization_id : option string) : io json :=
let params := org_params organization_id in
_make_request self "GET" "/subscriptions/" (Some params).

Definition get_subscription (self : PolarAPI) (subscription_id : string) : io json :=
_make_request self "GET" ("/subscriptions/" ++ subscription_id ++ "/") None.

Definition list_orders (self : PolarAPI) (organization_id : option string) : io json :=
let params := org_params organization_id in
_make_request self "GET" "/orders/" (Some params).

Definition get_order (self : PolarAPI) (order_id : string) : io json :=
_make_request self "GET" ("/orders/" ++ order_id ++ "/") None.

Definition list_benefits (self : PolarAPI) (organization_id : option string) : io json :=
let params := org_params organization_id in
_make_request self "GET" "/benefits/" (Some params).

Definition create_benefit (self : PolarAPI) (organization_id type description : string)
  (properties : json) : io json :=
let data := JObj {[ "organization_id" := JStr organization_id;
                    "type" := JStr type;
                    "description" := JStr description;
                    "properties" := properties ]} in
_make_request self "POST" "/benefits/" (Some data).

Definition list_customers (self : PolarAPI) (organization_id : option string) : io json :=
let params := org_params organization_id in
_make_request self "GET" "/customers/" (Some params).

Definition list_webhook_endpoints (self : PolarAPI) (organization_id : option string) : io json :=
let params := org_params organization_id in
_make_request self "GET" "/webhooks/endpoints/" (Some params).

Definition create_webhook_endpoint (self : PolarAPI) (organization_id u : string)
  (events : list string) : io json :=
let data := JObj {[ "organization_id" := JStr organization_id;
                    "url" := JStr u;
                    "events" := JList (JStr <$> events) ]} in
_make_request self "POST" "/webhooks/endpoints/" (Some data).

End Client.

(** ** Python helpers of the actions *)

Module Py.

(** The newline character. *)
Definition nl : string := String "010"%char EmptyString.

(** [s.split(sep)] for a one-character separator: the pieces between the
    separators, empty ones included; never the empty list. *)
Fixpoint split (sep : ascii) (s : string) : list string :=
match s with
| EmptyString => [EmptyString]
| String c s' =>
    if Ascii.eqb c sep then EmptyString :: split sep s'
    else match split sep s' with
         | h :: t => String c h :: t
         | [] => [String c EmptyString]
         end
end.

(** [[x.strip() for x in s.split(",") if x.strip()]] *)
Definition stripped_pieces (s : string) : list string :=
omap (fun x => if String.eqb (PyStr.strip x) "" then None
               else Some (PyStr.strip x))
     (split "," s).

(** [t in s] for two strings. *)
Fixpoint contains (t s : string) : bool :=
String.prefix t s
|| match s with
   | EmptyString => false
   | String _ s' => contains t s'
   end.

(** Truthiness of a JSON-like value. *)
Definition truthy (j : json) : bool :=
match j with
| JNull => false
| JBool b => b
| JInt z => negb (z =? 0)
| JStr s => PyStr.truthy (Some s)
| JList l => match l with [] => false | _ => true end
| JObj d => negb (bool_decide (d = ∅))
end.

(** [d.get(k)] *)
Definition get (d : dict) (k : string) : json := default JNull (d !! k).

(** [all([a, b, ..])] on strings that may be [None]. *)
Definition all (l : list (option string)) : bool := forallb PyStr.truthy l.

End Py.

(** The text of each [ValueError] of the builder, which is what [f"{e}"]
    gives.  A literal of the source with a character above 255 is
    written as it is and stands for its UTF-8 bytes; no function looks
    into these texts. *)
Definition message (e : ValueError) : string :=
match e with
| NameTooShort => "Name minimal 3 karakter."
| InvalidPlan => "Plan tidak valid (one_time | month | year)."
| InvalidPriceType => "Tipe harga tidak valid (fixed | custom | free)."
| FixedAmountInvalid => "Fixed price (cents) wajib diisi, min 50."
| CustomBelowFifty => "Custom price: minimum/maximum/preset harus ≥ 50 bila diisi."
| CustomMinExceedsMax => "Custom price: minimum tidak boleh > maximum."
| OneTimeMetered => "Produk one-time TIDAK boleh punya metered price."
| MeterIdInvalid => "meter_id harus UUID valid."
| UnitAmountMissing => "unit_amount (cents) wajib diisi untuk metered."
| CapNegative => "cap_amount tidak boleh negatif."
| OrgIdInvalid => "organization_id harus UUID valid."
end.

(** ** The actions of the dashboard

    The global [polar_api] is an argument of each action, [None] before
    the first initialization; [initialize_polar_api] returns its new
    value beside the message.  What the interpreter and [json] print is
    taken as given:
    - [dumps] is [json.dumps(_, indent=2, ensure_ascii=False)];
    - [loads] is [json.loads]: [DecodeError] is its [JSONDecodeError],
      [DecodeRaises] an exception of another class;
    - [repr] is [str] of a list or a dict;
    - [exc_text] is [str(e)] of the exception the interpreter raises
      when ["error" in v] or [v.get] is applied to a value [v] that has
      no such operation. *)

Section actions.

Variable dumps : json -> string.
Variable loads : string -> decoded.
Variable repr : json -> string.
Variable exc_text : json -> string.

(** [str(v)], as an f-string applies it. *)
Definition str_json (v : json) : string :=
match v with
| JNull => "None"
| JBool b => if b then "True" else "False"
| JInt z => pretty z
| JStr s => s
| JList _ | JObj _ => repr v
end.

Definition format_json_output (data : json) : string :=
match data with
| JObj d =>
    if bool_decide (is_Some (d !! "error")) then
      let pretty_body :=
        if Py.truthy (Py.get d "body")
        then Py.nl ++ "Response body: " ++ str_json (Py.get d "body")
        else "" in
      "Error: " ++ str_json (Py.get d "error")
      ++ " (status: " ++ str_json (Py.get d "status_code") ++ ")" ++ pretty_body
    else dumps data
| _ => dumps data
end.

Definition initialize_polar_api (polar_api : option PolarAPI)
  (access_token : option string) (use_sandbox : bool)
  : io (string * option PolarAPI) :=
if negb (PyStr.truthy access_token) then
  Return ("Access token is required", polar_api)
else
  let polar_api := PolarAPI_init (default "" access_token) use_sandbox in
  try_except_Exception
    (orgs ← Client.list_organizations polar_api;
     let failed (d : dict) :=
       "ailed to connect: " ++ str_json (Py.get d "error")
       ++ " | body: " ++ str_json (Py.get d "body") in
     let raised := "Error initializing API: " ++ exc_text orgs in
     let msg :=
       match orgs with
       | JObj d =>
           if bool_decide (is_Some (d !! "error")) then failed d
           else "Connected to Polar"
       | JList l =>
           if existsb (fun x => match x with
                                | JStr s => String.eqb s "error"
                                | _ => false
                                end) l
           then raised else "Connected to Polar"
       | JStr s => if Py.contains "error" s then raised else "Connected to Polar"
       | JNull | JBool _ | JInt _ => raised
       end in
     Return (msg, Some polar_api))
    (fun text => Return ("Error initializing API: " ++ text, Some polar_api)).

Definition get_organizations (polar_api : option PolarAPI) : io string :=
match polar_api with
| None => Return "Please initialize API connection first"
| Some api =>
    result ← Client.list_organizations api;
    Return (format_json_output result)
end.

Definition get_organization_details (polar_api : option PolarAPI)
  (org_id : option string) : io string :=
match polar_api with
| None => Return " Please initialize API connection first"
| Some api =>
    if negb (PyStr.truthy org_id) then Return "Organization ID is required"
    else
      result ← Client.get_organization api (default "" org_id);
      Return (format_json_output result)
end.

Definition get_products (polar_api : option PolarAPI)
  (org_id : option string) : io string :=
match polar_api with
| None => Return "Please initialize API connection first"
| Some api =>
    result ← Client.list_products api org_id;
    Return (format_json_output result)
end.

Definition get_product_details (polar_api : option PolarAPI)
  (product_id : option string) : io string :=
match polar_api with
| None => Return "Please initialize API connection first"
| Some api =>
    if negb (PyStr.truthy product_id) then Return "Product ID is required"
    else
      result ← Client.get_product api (default "" product_id);
      Return (format_json_output result)
end.

(** The tuple returned is a list of strings: its length is 2 on one path
    and 3 on the others.  The [timeout=45] of the call is not part of
    what is sent. *)
Definition create_product_simple_action (polar_api : option PolarAPI)
  (name description : option string) (plan price_type : string)
  (fixed_amount custom_min custom_max custom_preset : pyval)
  (org_id : option string) (enable_metered : bool)
  (meter_id : option string) (unit_amount cap_amount : pyval)
  : io (list string) :=
match polar_api with
| None => Return ["Please initialize API connection first"; ""; ""]
| Some api =>
    match build_product_payload_simple name description plan price_type
            fixed_amount custom_min custom_max custom_preset
            org_id enable_metered meter_id unit_amount cap_amount with
    | Raise e => Return [message e; ""; ""]
    | Ok payload =>
        let u := base_url api ++ "/products/" in
        let hdrs := <["Accept" := "application/json"]> (headers api) in
        try_except
          (r ← requests.post u hdrs (Some (JObj payload));
           body ← try_except_Exception (requests.json r)
                    (fun _ => Return (JObj {[ "raw" := JStr (text r) ]}));
           let status :=
             PyStr.strip (pretty (status_code r) ++ " " ++ reason r) in
           Return [status; dumps body])
          (fun e => Return ["❌ Request error: " ++ exc_str e; ""; ""])
    end
end.

Definition generate_curl_simple_action (polar_api : option PolarAPI)
  (name description : option string) (plan price_type : string)
  (fixed_amount custom_min custom_max custom_preset : pyval)
  (org_id : option string) (enable_metered : bool)
  (meter_id : option string) (unit_amount cap_amount : pyval)
  : list string :=
match build_product_payload_simple name description plan price_type
        fixed_amount custom_min custom_max custom_preset
        org_id enable_metered meter_id unit_amount cap_amount with
| Raise e => ["❌ " ++ message e; ""; ""]
| Ok payload => ["DRY RUN — cURL generated only"; dumps (JObj payload)]
end.

Definition create_checkout_session (polar_api : option PolarAPI)
  (product_ids success_url customer_email : option string)
  (allow_discount_codes require_billing_address is_business_customer : bool)
  : io string :=
match polar_api with
| None => Return "Please initialize API connection first"
| Some api =>
    if negb (Py.all [product_ids; success_url]) then
      Return "Product IDs and success URL are required"
    else
      let product_list := Py.stripped_pieces (default "" product_ids) in
      match product_list with
      | [] => Return "At least one product ID is required"
      | _ =>
          result ← Client.create_checkout api product_list
                     (default "" success_url) customer_email
                     allow_discount_codes require_billing_address
                     is_business_customer;
          Return (format_json_output result)
      end
end.

Definition get_subscriptions (polar_api : option PolarAPI)
  (org_id : option string) : io string :=
match polar_api with
| None => Return "Please initialize API connection first"
| Some api =>
    result ← Client.list_subscriptions api org_id;
    Return (format_json_output result)
end.

Definition get_subscription_details (polar_api : option PolarAPI)
  (subscription_id : option string) : io string :=
match polar_api with
| None => Return "Please initialize API connection first"
| Some api =>
    if negb (PyStr.truthy subscription_id) then Return "Subscription ID is required"
    else
      result ← Client.get_subscription api (default "" subscription_id);
      Return (format_json_output result)
end.

Definition get_orders (polar_api : option PolarAPI)
  (org_id : option string) : io string :=
match polar_api with
| None => Return "❌ Please initialize API connection first"
| Some api =>
    result ← Client.list_orders api org_id;
    Return (format_json_output result)
end.

Definition get_order_details (polar_api : option PolarAPI)
  (order_id : option string) : io string :=
match polar_api with
| None => Return "❌ Please initialize API connection first"
| Some api =>
    if negb (PyStr.truthy order_id) then Return "❌ Order ID is required"
    else
      result ← Client.get_order api (default "" order_id);
      Return (format_json_output result)
end.

Definition get_benefits (polar_api : option PolarAPI)
  (org_id : option string) : io string :=
match polar_api with
| None => Return "❌ Please initialize API connection first"
| Some api =>
    result ← Client.list_benefits api org_id;
    Return (format_json_output result)
end.

Definition create_new_benefit (polar_api : option PolarAPI)
  (org_id benefit_type description properties_json : option string)
  : io string :=
match polar_api with
| None => Return "❌ Please initialize API connection first"
| Some api =>
    if negb (Py.all [org_id; benefit_type; description]) then
      Return "❌ Organization ID, type, and description are required"
    else
      match (if PyStr.truthy properties_json
             then loads (default "" properties_json)
             else Decoded (JObj ∅)) with
      | DecodeError _ => Return "❌ Invalid JSON in properties field"
      | DecodeRaises msg => Abort msg
      | Decoded properties =>
          result ← Client.create_benefit api (default "" org_id)
                     (default "" benefit_type) (default "" description)
                     properties;
          Return (format_json_output result)
      end
end.

Definition get_customers (polar_api : option PolarAPI)
  (org_id : option string) : io string :=
match polar_api with
| None => Return "❌ Please initialize API connection first"
| Some api =>
    result ← Client.list_customers api org_id;
    Return (format_json_output result)
end.

Definition get_webhook_endpoints (polar_api : option PolarAPI)
  (org_id : option string) : io string :=
match polar_api with
| None => Return "❌ Please initialize API connection first"
| Some api =>
    result ← Client.list_webhook_endpoints api org_id;
    Return (format_json_output result)
end.

Definition create_webhook_endpoint (polar_api : option PolarAPI)
  (org_id u events : option string) : io string :=
match polar_api with
| None => Return "❌ Please initialize API connection first"
| Some api =>
    if negb (Py.all [org_id; u; events]) then
      Return "❌ Organization ID, URL, and events are required"
    else
      let event_list := Py.stripped_pieces (default "" events) in
      result ← Client.create_webhook_endpoint api (default "" org_id)
                 (default "" u) event_list;
      Return (format_json_output result)
end.

End actions.

(** A value of an amount field with its text trimmed. *)
Definition trim_val (v : pyval) : pyval :=
match v with
| PStr s => PStr (PyStr.strip s)
| _ => v
end.

(** ** What an action does on a network *)

Module Outcome.

(** The program sends at most one request, whether it returns or an
    exception leaves it. *)
Definition at_most_one_request {A} (net : network) (m : io A) : Prop :=
(length (snd (run net m)) <= 1)%nat.

(** The program has no handler of its own for what escapes the helper:
    where it sent one request and the answer makes the helper raise, the
    same exception leaves the program. *)
Definition passes_on {A} (net : network) (m : io A) : Prop :=
forall (req : Request) (msg : string),
  snd (run net m) = [req] ->
  Gateway.escapes (net req) = Some msg ->
  fst (run net m) = inl (Other_exception msg).

(** The program sends nothing. *)
Definition silent {A} (net : network) (m : io A) : Prop :=
snd (run net m) = [].

End Outcome.

(** ** Stand-ins for the printers, for the concrete runs *)

Module Demo.

Definition dumps (j : json) : string :=
match j with
| JObj _ => "{..}"
| JList _ => "[..]"
| _ => "scalar"
end.

Definition loads (s : string) : decoded :=
if String.eqb s "{}" then Decoded (JObj ∅) else DecodeError "Expecting value".

Definition repr (j : json) : string := dumps j.

Definition exc_text (j : json) : string := "not a dict".

(** A network that is down. *)
Definition down : network :=
Sample.always (inl {| exc_str := "connection refused"; exc_response := None |}).

(** A network that answers 404 to everything. *)
Definition not_found : Response :=
Sample.response 404 "Not Found" "not here" (DecodeError "Expecting value").

End Demo.

(** ** Facts on strings *)

Section string_facts.
Import PyStr.

Lemma eqb_decide (a b : string) : String.eqb a b = bool_decide (a = b).
Proof.
  destruct (String.eqb_spec a b); [by rewrite bool_decide_eq_true_2|
                                   by rewrite bool_decide_eq_false_2].
Qed.

Lemma truthy_empty_strip (s : string) :
  truthy (Some s) = false -> strip s = "".
Proof. by destruct s. Qed.

Lemma len_strip_truthy (s : option string) :
  (3 <=? len (strip (default "" s))) = true -> truthy s = true.
Proof. destruct s as [[|c s]|]; done. Qed.

Lemma strip_nonempty_truthy (s : string) :
  String.eqb (strip s) "" = false -> truthy (Some s) = true.
Proof. by destruct s. Qed.

Lemma truthy_strip (s : string) :
  truthy (Some (strip s)) = negb (String.eqb (strip s) "").
Proof. by destruct (strip s). Qed.

Lemma is_uuid_truthy (m : option string) :
  _is_uuid m = true -> truthy m = true.
Proof. destruct m as [[|c s]|]; done. Qed.

Lemma meter_check (m : option string) :
  negb (truthy m) || negb (_is_uuid m) = negb (_is_uuid m).
Proof.
  destruct (_is_uuid m) eqn:H; [|by rewrite orb_true_r].
  by rewrite (is_uuid_truthy m H).
Qed.

Lemma unit_check (u : pyval) :
  match u with
  | PNone => true
  | _ => String.eqb (strip (py_str u)) ""
  end = negb (Rules.supplied u).
Proof. destruct u; cbn; by rewrite ?negb_involutive. Qed.

Lemma org_check (o : option string) :
  truthy o && truthy (strip <$> o) = Rules.supplied_str o.
Proof.
  destruct o as [[|c s]|]; [done| |done].
  cbn [fmap option_fmap option_map Rules.supplied_str Rules.blank truthy andb].
  apply truthy_strip.
Qed.

End string_facts.

(** ** The builder against the rules *)

Section builder_refines_rules.
Import PyStr.

Variables (name description : option string) (plan price_type : string).
Variables (fixed_amount custom_min custom_max custom_preset : pyval).
Variables (org_id : option string) (enable_metered : bool).
Variables (meter_id : option string) (unit_amount cap_amount : pyval).

Lemma build_by_rules :
  build_product_payload_simple name description plan price_type
    fixed_amount custom_min custom_max custom_preset
    org_id enable_metered meter_id unit_amount cap_amount
  = match Rules.first_violation name description plan price_type
            fixed_amount custom_min custom_max custom_preset
            org_id enable_metered meter_id unit_amount cap_amount with
    | Some e => Raise e
    | None => Ok (Rules.payload_of name description plan price_type
                    fixed_amount custom_min custom_max custom_preset
                    org_id enable_metered meter_id unit_amount cap_amount)
    end.
Proof.
  unfold build_product_payload_simple, Rules.first_violation.
  rewrite meter_check, unit_check, org_check.
  unfold Rules.name.
  destruct name as [n|]; [|reflexivity].
  change (default "" (Some n)) with n.
  destruct (3 <=? len (strip n)) eqn:Hn.
  2:{ replace (len (strip n) <? 3) with true by lia.
      by rewrite orb_true_r. }
  rewrite (len_strip_truthy (Some n) Hn).
  replace (len (strip n) <? 3) with false by lia.
  cbn [negb orb raise_if mbind except_bind].
  (* plan *)
  unfold Rules.plan, Rules.payload_of, Rules.payload_core, Rules.metered.
  rewrite !eqb_decide.
  destruct (bool_decide (plan = "one_time")) eqn:Hp1;
    [|destruct (bool_decide (plan = "month") || bool_decide (plan = "year")) eqn:Hp2].
  3:{ rewrite (bool_decide_eq_false_2 (plan ∈ _)); [reflexivity|].
      apply bool_decide_eq_false in Hp1. apply orb_false_iff in Hp2 as [H2 H3].
      apply bool_decide_eq_false in H2, H3.
      rewrite !elem_of_cons, elem_of_nil. tauto. }
  all: rewrite (bool_decide_eq_true_2 (plan ∈ _));
    [|rewrite !elem_of_cons;
      first [apply bool_decide_eq_true in Hp1
            |apply orb_true_iff in Hp2 as [H2|H2]; apply bool_decide_eq_true in H2];
      tauto].
  all: cbn [mbind except_bind].
  (* price type and its fields *)
  all: unfold Rules.price, Rules.prices_of, Rules.base_spec.
  all: destruct (bool_decide (price_type = "fixed")) eqn:Hf;
    [|destruct (bool_decide (price_type = "custom")) eqn:Hc;
      [|destruct (bool_decide (price_type = "free")) eqn:Hfr; [|reflexivity]]].
  all: cbn [negb orb raise_if mbind except_bind].
  all: try (destruct (_as_int_cents fixed_amount) as [c|]; [|reflexivity];
            destruct (c <? 50) eqn:Hc50;
            [by replace (50 <=? c) with false by lia
            |replace (50 <=? c) with true by lia]).
  all: try (destruct (below (_as_int_cents custom_min) 50
                      || below (_as_int_cents custom_max) 50
                      || below (_as_int_cents custom_preset) 50);
            [reflexivity|];
            cbn [negb orb raise_if mbind except_bind];
            destruct (_as_int_cents custom_min) as [lo|],
                     (_as_int_cents custom_max) as [hi|];
            try (destruct (hi <? lo) eqn:Hlh;
                 [by replace (lo <=? hi) with false by lia
                 |replace (lo <=? hi) with true by lia])).
  all: cbn [negb orb raise_if mbind except_bind opt_json set_if_some].
  (* the metered block *)
  all: destruct enable_metered.
  all: rewrite ?bool_decide_eq_true_2 by reflexivity.
  all: rewrite ?(bool_decide_eq_false_2 (Some plan = None)) by discriminate.
  all: cbn [negb orb raise_if mbind except_bind].
  all: try reflexivity.
  all: try (destruct (_is_uuid meter_id); [|reflexivity];
            destruct (Rules.supplied unit_amount); [|reflexivity];
            cbn [negb orb raise_if mbind except_bind];
            unfold Rules.metered_spec;
            destruct (_as_int_cents cap_amount) as [cap|];
            cbn [below set_if_some];
            [destruct (cap <? 0); [reflexivity|]|];
            cbn [negb orb raise_if mbind except_bind]).
  (* organization id *)
  all: unfold Rules.org.
  all: destruct (Rules.supplied_str org_id); [destruct (_is_uuid org_id)|];
    reflexivity.
Qed.


End builder_refines_rules.

(** ** The gateway sends at most one request *)

Section gateway_facts.
Import PyStr.

Variables (self : PolarAPI) (method endpoint : string) (data : option json).

Lemma error_record_is_error msg resp :
  is_error_record (Gateway.error_record msg resp) = true.
Proof. reflexivity. Qed.

Lemma unsupported_is_error m :
  is_error_record (Gateway.unsupported m) = true.
Proof. reflexivity. Qed.

Lemma status_only_is_no_error code :
  is_error_record (JObj {[ "status" := JInt code ]}) = false.
Proof. reflexivity. Qed.

Lemma append_nonempty (a : string) (c : ascii) (b : string) :
  String.eqb (a ++ String c b) "" = false.
Proof. by destruct a. Qed.

Lemma http_error_msg_empty r :
  String.eqb (requests.http_error_msg r) "" = negb (Gateway.is_http_error r).
Proof.
  unfold requests.http_error_msg, Gateway.is_http_error.
  destruct ((400 <=? status_code r) && (status_code r <? 500)) eqn:H4.
  { replace ((400 <=? status_code r) && (status_code r <? 600)) with true by lia.
    apply append_nonempty. }
  destruct ((500 <=? status_code r) && (status_code r <? 600)) eqn:H5.
  { replace ((400 <=? status_code r) && (status_code r <? 600)) with true by lia.
    apply append_nonempty. }
  by replace ((400 <=? status_code r) && (status_code r <? 600)) with false by lia.
Qed.

Lemma outcome_of_result a :
  Gateway.escapes a = None -> Gateway.outcome_of a = inr (Gateway.result_of a).
Proof. unfold Gateway.outcome_of. by intros ->. Qed.

Lemma outcome_of_escapes a msg :
  Gateway.escapes a = Some msg ->
  Gateway.outcome_of a = inl (Other_exception msg).
Proof. unfold Gateway.outcome_of. by intros ->. Qed.

Lemma outcome_of_exception e :
  Gateway.outcome_of (inl e) = inr (Gateway.result_of (inl e)).
Proof. reflexivity. Qed.

Lemma outcome_of_http_error r :
  Gateway.is_http_error r = true ->
  Gateway.outcome_of (inr r) = inr (Gateway.result_of (inr r)).
Proof. unfold Gateway.outcome_of, Gateway.escapes. by intros ->. Qed.

Lemma outcome_of_blank r :
  Rules.blank (text r) = true ->
  Gateway.outcome_of (inr r) = inr (Gateway.result_of (inr r)).
Proof.
  unfold Gateway.outcome_of, Gateway.escapes. intros ->.
  by rewrite orb_true_r.
Qed.

(** After the request is answered: the rest of the [try] block and the
    handler give [Gateway.outcome_of]. *)
Lemma answered (net : network) (req : Request) :
  run net
    (try_except
       (response ← requests.call req;
        _ ← requests.raise_for_status response;
        if String.eqb (strip (text response)) "" then
          Return (JObj {[ "status" := JInt (status_code response) ]})
        else requests.json response)
       (fun e =>
          Return (JObj {[ "error" := JStr (exc_str e);
                          "status_code" := getattr_status_code (exc_response e);
                          "body" := getattr_text (exc_response e) ]})))
  = (Gateway.outcome_of (net req), [req]).
Proof.
  unfold requests.call.
  cbn [mbind io_mbind io_bind try_except run].
  unfold Gateway.outcome_of, Gateway.escapes, Gateway.result_of.
  destruct (net req) as [e|r]; [reflexivity|].
  cbn [io_bind try_except].
  unfold requests.raise_for_status.
  rewrite http_error_msg_empty.
  destruct (Gateway.is_http_error r); [reflexivity|].
  cbn [negb io_bind try_except orb].
  unfold Rules.blank.
  destruct (String.eqb (strip (text r)) ""); [reflexivity|].
  unfold requests.json.
  destruct (json_body r); reflexivity.
Qed.

Lemma make_request_supported :
  Gateway.supported method = true ->
  exists req : Request,
    forall net : network,
      run net (_make_request self method endpoint data)
      = (Gateway.outcome_of (net req), [req]).
Proof.
  unfold Gateway.supported, _make_request.
  rewrite !eqb_decide.
  intros H. apply bool_decide_eq_true in H.
  rewrite !elem_of_cons, elem_of_nil in H.
  repeat case_bool_decide; try tauto.
  all: eexists; intros net; apply answered.
Qed.

Lemma make_request_unsupported :
  Gateway.supported method = false ->
  _make_request self method endpoint data = Return (Gateway.unsupported method).
Proof.
  unfold Gateway.supported, _make_request.
  rewrite !eqb_decide.
  intros H. apply bool_decide_eq_false in H.
  rewrite !elem_of_cons, elem_of_nil in H.
  repeat case_bool_decide; tauto.
Qed.

End gateway_facts.

Section payload_facts.
Import PyStr.

Variables (name description : option string) (plan price_type : string).
Variables (fixed_amount custom_min custom_max custom_preset : pyval).
Variables (org_id : option string) (enable_metered : bool).
Variables (meter_id : option string) (unit_amount cap_amount : pyval).

Let payload :=
  Rules.payload_of name description plan price_type
    fixed_amount custom_min custom_max custom_preset
    org_id enable_metered meter_id unit_amount cap_amount.

Lemma payload_of_name :
  payload !! "name" = Some (JStr (strip (default "" name))).
Proof.
  subst payload. unfold Rules.payload_of, Rules.payload_core.
  destruct (Rules.supplied_str org_id); reflexivity.
Qed.

Lemma payload_of_description :
  payload !! "description"
  = Some (if truthy description then JStr (default "" description) else JNull).
Proof.
  subst payload. unfold Rules.payload_of, Rules.payload_core.
  destruct (Rules.supplied_str org_id); reflexivity.
Qed.

Lemma payload_of_interval :
  payload !! "recurring_interval"
  = Some (if bool_decide (plan = "one_time") then JNull else JStr plan).
Proof.
  subst payload. unfold Rules.payload_of, Rules.payload_core.
  destruct (Rules.supplied_str org_id); reflexivity.
Qed.

Lemma payload_of_prices :
  payload !! "prices"
  = Some (JList (JObj <$>
      Rules.prices_of price_type fixed_amount custom_min custom_max
        custom_preset enable_metered meter_id unit_amount cap_amount)).
Proof.
  subst payload. unfold Rules.payload_of, Rules.payload_core.
  destruct (Rules.supplied_str org_id); reflexivity.
Qed.

Lemma payload_of_org :
  payload !! "organization_id"
  = if Rules.supplied_str org_id
    then Some (JStr (strip (default "" org_id))) else None.
Proof.
  subst payload. unfold Rules.payload_of, Rules.payload_core.
  destruct (Rules.supplied_str org_id); reflexivity.
Qed.

End payload_facts.

Section uuid_facts.
Import PyStr.

Lemma in_class_not_space k c : in_class k c = true -> isspace c = false.
Proof.
  destruct c as [[] [] [] [] [] [] [] []], k; vm_compute; congruence.
Qed.

Lemma fullmatch_lstrip p s : fullmatch p s = true -> lstrip s = s.
Proof.
  destruct p as [|k p], s as [|c s]; cbn; try done.
  intros [Hc _]%andb_true_iff. by rewrite (in_class_not_space k c Hc).
Qed.

Lemma fullmatch_rstrip p s : fullmatch p s = true -> rstrip s = s.
Proof.
  revert s; induction p as [|k p IH]; intros [|c s]; cbn; try done.
  intros [Hc Hs]%andb_true_iff. rewrite (IH s Hs).
  destruct s; [|done]. by rewrite (in_class_not_space k c Hc).
Qed.

Lemma fullmatch_strip p s : fullmatch p s = true -> strip s = s.
Proof.
  intros H. unfold strip. rewrite (fullmatch_rstrip p s H).
  by apply fullmatch_lstrip with p.
Qed.

Lemma fullmatch_re_match p s : fullmatch p s = true -> re_match p s = true.
Proof.
  revert s; induction p as [|k p IH]; intros [|c s]; cbn; try done.
  intros [Hc Hs]%andb_true_iff. by rewrite Hc, (IH s Hs).
Qed.

(** A text that is exactly a UUID passes [_is_uuid] and is not changed
    by trimming. *)
Lemma fullmatch_is_uuid s :
  fullmatch UUID_RE s = true -> _is_uuid (Some s) = true /\ strip s = s.
Proof.
  intros H. unfold _is_uuid. cbn [default from_option id].
  rewrite (fullmatch_strip _ _ H). split; [|done].
  by apply fullmatch_re_match.
Qed.

End uuid_facts.

(** ** [int] of a float truncates toward zero *)

Section int_facts.

(** The integer has the sign of the float, and its magnitude is the
    integer part of the magnitude [m * 2^e] of the float. *)
Lemma int_truncates (neg : bool) (m e z : Z) :
  0 <= m ->
  PyNum.int (PyNum.Finite neg m e) = Some z ->
  z = (if neg then - Z.abs z else Z.abs z)
  /\ (0 <= e -> Z.abs z = m * 2 ^ e)
  /\ (e < 0 -> Z.abs z * 2 ^ (- e) <= m < (Z.abs z + 1) * 2 ^ (- e)).
Proof.
  intros Hm. unfold PyNum.int.
  destruct (0 <=? e) eqn:He.
  - intros [= <-].
    assert (0 <= m * 2 ^ e) by (apply Z.mul_nonneg_nonneg; [lia|apply Z.pow_nonneg; lia]).
    destruct neg; rewrite ?Z.abs_opp, Z.abs_eq by lia; repeat split; lia.
  - intros [= <-].
    assert (0 < 2 ^ (- e)) as Hp by (apply Z.pow_pos_nonneg; lia).
    assert (0 <= m / 2 ^ (- e)) as Hq by (apply Z.div_pos; lia).
    pose proof (Z.mul_div_le m (2 ^ (- e)) Hp) as Hlo.
    pose proof (Z.mul_succ_div_gt m (2 ^ (- e)) Hp) as Hhi.
    destruct neg; rewrite ?Z.abs_opp, Z.abs_eq by lia; repeat split; lia.
Qed.

End int_facts.

(** ** The claims on the builder *)

Section builder_claims.
Import PyStr.

Variables (name description : option string) (plan price_type : string).
Variables (fixed_amount custom_min custom_max custom_preset : pyval).
Variables (org_id : option string) (enable_metered : bool).
Variables (meter_id : option string) (unit_amount cap_amount : pyval).

(** C1.  With plan one_time and metered pricing enabled the builder
    raises, whatever meter_id, unit_amount and cap_amount are, and
    once the name and the price fields are valid the error is the one
    of the one-time rule.  So a payload the builder returns for a
    one_time plan has a null recurring interval and a price sequence
    that holds the base price alone, whose type is not metered. *)
Theorem one_time_metered_always_fails :
  (exists e,
      build_product_payload_simple name description "one_time" price_type
        fixed_amount custom_min custom_max custom_preset
        org_id true meter_id unit_amount cap_amount = Raise e
      /\ (Rules.name name = None ->
          Rules.price price_type fixed_amount custom_min custom_max
            custom_preset = None ->
          e = OneTimeMetered))
  /\ (forall payload,
        build_product_payload_simple name description "one_time" price_type
          fixed_amount custom_min custom_max custom_preset
          org_id enable_metered meter_id unit_amount cap_amount = Ok payload ->
        payload !! "recurring_interval" = Some JNull
        /\ exists base : dict,
             payload !! "prices" = Some (JList [JObj base])
             /\ base !! "amount_type" <> Some (JStr "metered_unit")).
Proof.
  split.
  - rewrite build_by_rules. unfold Rules.first_violation.
    destruct (Rules.name name); [by eexists|].
    change (Rules.plan "one_time") with (@None ValueError).
    destruct (Rules.price _ _ _ _ _); [by eexists|].
    by eexists.
  - intros payload. rewrite build_by_rules.
    destruct (Rules.first_violation _ _ _ _ _ _ _ _ _ _ _ _ _) eqn:Hv; [done|].
    intros [= <-].
    rewrite payload_of_interval, payload_of_prices.
    split; [done|].
    unfold Rules.first_violation in Hv.
    destruct (Rules.name name); [done|].
    change (Rules.plan "one_time") with (@None ValueError) in Hv.
    destruct (Rules.price _ _ _ _ _); [done|].
    destruct enable_metered; [done|].
    eexists; split; [reflexivity|].
    unfold Rules.base_spec.
    repeat case_bool_decide; unfold set_if_some;
      repeat case_match; done.
Qed.

(** C2, as amended.  For price_type fixed, with parsing read as the
    source does it (the trimmed text as a binary64 float, then
    truncated toward zero): a missing or non-numeric amount does not
    parse; an amount that does not parse or parses below 50 makes the
    builder raise, with the fixed-price error once name and plan are
    valid; an amount that parses to c >= 50 makes an otherwise valid
    input succeed, and the base price specification, first in the
    price sequence, carries exactly c. *)
Theorem fixed_amount_threshold :
  (Rules.supplied fixed_amount = false -> _as_int_cents fixed_amount = None)
  /\ (PyNum.float (strip (py_str fixed_amount)) = None ->
      _as_int_cents fixed_amount = None)
  /\ (forall c, _as_int_cents fixed_amount = Some c ->
        exists x, PyNum.float (strip (py_str fixed_amount)) = Some x
                  /\ PyNum.int x = Some c)
  /\ (_as_int_cents fixed_amount = None
      \/ (exists c, _as_int_cents fixed_amount = Some c /\ c < 50) ->
      exists e,
        build_product_payload_simple name description plan "fixed"
          fixed_amount custom_min custom_max custom_preset
          org_id enable_metered meter_id unit_amount cap_amount = Raise e
        /\ (Rules.name name = None -> Rules.plan plan = None ->
            e = FixedAmountInvalid))
  /\ (forall c,
        _as_int_cents fixed_amount = Some c -> 50 <= c ->
        Rules.name name = None -> Rules.plan plan = None ->
        Rules.metered plan enable_metered meter_id unit_amount cap_amount = None ->
        Rules.org org_id = None ->
        exists (payload : dict) (rest : list json),
          build_product_payload_simple name description plan "fixed"
            fixed_amount custom_min custom_max custom_preset
            org_id enable_metered meter_id unit_amount cap_amount = Ok payload
          /\ payload !! "prices"
             = Some (JList (JObj {[ "amount_type" := JStr "fixed";
                                    "price_currency" := JStr "usd";
                                    "price_amount" := JInt c ]} :: rest))).
Proof.
  split; [|split; [|split; [|split]]].
  - unfold Rules.supplied, Rules.blank, _as_int_cents.
    destruct fixed_amount; [done| |]; by intros ->%negb_false_iff.
  - unfold _as_int_cents. intros ->.
    destruct fixed_amount; [done| |]; by case_match.
  - intros c. unfold _as_int_cents.
    destruct fixed_amount; [done| |];
      (case_match; [done|]);
      (destruct (PyNum.float _) as [x|]; [|done]); cbn; eauto.
  - intros H. rewrite build_by_rules. unfold Rules.first_violation.
    destruct (Rules.name name); [by eexists|].
    destruct (Rules.plan plan); [by eexists|].
    unfold Rules.price. rewrite bool_decide_eq_true_2 by done.
    destruct H as [->|(c & -> & Hc)]; [by eexists|].
    replace (50 <=? c) with false by lia. by eexists.
  - intros c Hc H50 Hn Hp Hm Ho. rewrite build_by_rules.
    unfold Rules.first_violation. rewrite Hn, Hp, Hm, Ho.
    unfold Rules.price. rewrite bool_decide_eq_true_2 by done.
    rewrite Hc. replace (50 <=? c) with true by lia.
    eexists _, _. split; [reflexivity|].
    rewrite payload_of_prices. unfold Rules.prices_of, Rules.base_spec.
    rewrite bool_decide_eq_true_2 by done. rewrite Hc. reflexivity.
Qed.

(** C4, as amended.  With metered pricing enabled on a recurring plan
    of an otherwise valid input: a cap_amount that parses to a negative
    integer makes the builder raise the negative-cap error; one that
    parses to c >= 0 is carried by the metered specification; one that
    does not parse, missing or not numeric, is taken as not supplied:
    the builder succeeds and the metered specification has no
    cap_amount. *)
Theorem cap_amount_rule :
  Rules.name name = None -> Rules.plan plan = None -> plan <> "one_time" ->
  Rules.price price_type fixed_amount custom_min custom_max custom_preset = None ->
  _is_uuid meter_id = true -> Rules.supplied unit_amount = true ->
  Rules.org org_id = None ->
  (forall c, _as_int_cents cap_amount = Some c -> c < 0 ->
     build_product_payload_simple name description plan price_type
       fixed_amount custom_min custom_max custom_preset
       org_id true meter_id unit_amount cap_amount = Raise CapNegative)
  /\ (forall c, _as_int_cents cap_amount = Some c -> 0 <= c ->
        exists (payload base metered : dict),
          build_product_payload_simple name description plan price_type
            fixed_amount custom_min custom_max custom_preset
            org_id true meter_id unit_amount cap_amount = Ok payload
          /\ payload !! "prices" = Some (JList [JObj base; JObj metered])
          /\ metered !! "cap_amount" = Some (JInt c))
  /\ (_as_int_cents cap_amount = None ->
        exists (payload base metered : dict),
          build_product_payload_simple name description plan price_type
            fixed_amount custom_min custom_max custom_preset
            org_id true meter_id unit_amount cap_amount = Ok payload
          /\ payload !! "prices" = Some (JList [JObj base; JObj metered])
          /\ metered !! "cap_amount" = None).
Proof.
  intros Hn Hp Hp1 Hpr Hm Hu Ho.
  rewrite build_by_rules. unfold Rules.first_violation.
  rewrite Hn, Hp, Hpr, Ho. unfold Rules.metered.
  rewrite bool_decide_eq_false_2 by done. rewrite Hm, Hu. cbn [negb].
  split; [|split].
  - intros c -> Hc. cbn [below]. by replace (c <? 0) with true by lia.
  - intros c Hc H0. rewrite Hc. cbn [below].
    replace (c <? 0) with false by lia.
    eexists _, _, _. split; [reflexivity|].
    rewrite payload_of_prices. split; [reflexivity|].
    unfold Rules.metered_spec. by rewrite Hc.
  - intros Hc. rewrite Hc. cbn [below].
    eexists _, _, _. split; [reflexivity|].
    rewrite payload_of_prices. split; [reflexivity|].
    unfold Rules.metered_spec. by rewrite Hc.
Qed.

(** C5.  For an input that is valid apart from org_id, that is, one
    the builder accepts with no org_id: an org_id that is not blank
    and is no UUID makes the builder raise the organization-id error;
    an org_id that is missing, empty or blank gives the same payload,
    which has no organization_id key; an org_id that is a UUID gives
    that payload with organization_id set to the trimmed org_id, which
    is org_id itself when the text is exactly a UUID. *)
Theorem org_id_rule (p0 : dict) :
  build_product_payload_simple name description plan price_type
    fixed_amount custom_min custom_max custom_preset
    None enable_metered meter_id unit_amount cap_amount = Ok p0 ->
  (Rules.supplied_str org_id = true -> _is_uuid org_id = false ->
     build_product_payload_simple name description plan price_type
       fixed_amount custom_min custom_max custom_preset
       org_id enable_metered meter_id unit_amount cap_amount
     = Raise OrgIdInvalid)
  /\ (Rules.supplied_str org_id = false ->
        build_product_payload_simple name description plan price_type
          fixed_amount custom_min custom_max custom_preset
          org_id enable_metered meter_id unit_amount cap_amount = Ok p0
        /\ p0 !! "organization_id" = None)
  /\ (_is_uuid org_id = true ->
        exists payload : dict,
          build_product_payload_simple name description plan price_type
            fixed_amount custom_min custom_max custom_preset
            org_id enable_metered meter_id unit_amount cap_amount = Ok payload
          /\ payload = <["organization_id" := JStr (strip (default "" org_id))]> p0
          /\ payload !! "organization_id"
             = Some (JStr (strip (default "" org_id)))
          /\ (forall s, org_id = Some s -> fullmatch UUID_RE s = true ->
                payload !! "organization_id" = Some (JStr s))).
Proof.
  rewrite !build_by_rules. unfold Rules.first_violation.
  destruct (Rules.name name); [done|].
  destruct (Rules.plan plan); [done|].
  destruct (Rules.price _ _ _ _ _); [done|].
  destruct (Rules.metered _ _ _ _ _); [done|].
  cbn [Rules.org Rules.supplied_str andb]. intros [= <-].
  unfold Rules.org.
  split; [|split].
  - by intros -> ->.
  - intros Hs. rewrite Hs. cbn [andb].
    unfold Rules.payload_of. by rewrite Hs.
  - intros Hu. rewrite Hu, andb_false_r.
    assert (Rules.supplied_str org_id = true) as Hs.
    { unfold _is_uuid in Hu. destruct org_id as [s|]; [|done].
      cbn [default from_option id] in Hu. unfold Rules.supplied_str, Rules.blank.
      by destruct (strip s). }
    eexists. split; [reflexivity|].
    unfold Rules.payload_of. rewrite Hs. cbn [Rules.supplied_str].
    split; [reflexivity|]. split; [apply lookup_insert_eq|].
    intros s -> Hf. rewrite lookup_insert_eq. cbn [default from_option id].
    by rewrite (fullmatch_strip _ _ Hf).
Qed.

(** C6.  On a recurring plan (month or year), with a meter_id that is a
    UUID, a unit_amount that is present and not blank and a cap_amount
    that does not parse to a negative integer, an input the builder
    accepts with metered pricing off is accepted with it on.  The price
    sequence then has length 2: first the base price specification,
    the one of the payload built with metered pricing off, then an
    entry of type metered_unit that carries the trimmed meter_id and
    the trimmed text of unit_amount, a string that is never converted
    to a number.  A meter_id whose text is exactly a UUID is carried as
    it is. *)
Theorem metered_price_appended (p0 : dict) :
  plan = "month" \/ plan = "year" ->
  _is_uuid meter_id = true -> Rules.supplied unit_amount = true ->
  below (_as_int_cents cap_amount) 0 = false ->
  build_product_payload_simple name description plan price_type
    fixed_amount custom_min custom_max custom_preset
    org_id false meter_id unit_amount cap_amount = Ok p0 ->
  exists (payload base metered : dict),
    build_product_payload_simple name description plan price_type
      fixed_amount custom_min custom_max custom_preset
      org_id true meter_id unit_amount cap_amount = Ok payload
    /\ p0 !! "prices" = Some (JList [JObj base])
    /\ payload !! "prices" = Some (JList [JObj base; JObj metered])
    /\ (forall k, k <> "prices" -> payload !! k = p0 !! k)
    /\ metered !! "amount_type" = Some (JStr "metered_unit")
    /\ metered !! "meter_id" = Some (JStr (strip (default "" meter_id)))
    /\ metered !! "unit_amount" = Some (JStr (strip (py_str unit_amount)))
    /\ (forall s, meter_id = Some s -> fullmatch UUID_RE s = true ->
          metered !! "meter_id" = Some (JStr s)).
Proof.
  intros Hp Hm Hu Hc.
  rewrite !build_by_rules. unfold Rules.first_violation.
  destruct (Rules.name name); [done|].
  destruct (Rules.plan plan); [done|].
  destruct (Rules.price _ _ _ _ _); [done|].
  unfold Rules.metered. rewrite Hm, Hu, Hc.
  rewrite (bool_decide_eq_false_2 (plan = "one_time")) by (by destruct Hp as [-> | ->]).
  cbn [negb].
  destruct (Rules.org org_id); [done|]. intros [= <-].
  eexists _, _, _. split; [reflexivity|].
  rewrite !payload_of_prices.
  split; [reflexivity|]. split; [reflexivity|].
  assert (forall v : option Z,
    set_if_some "cap_amount" v
      {[ "amount_type" := JStr "metered_unit";
         "meter_id" := JStr (strip (default "" meter_id));
         "price_currency" := JStr "usd";
         "unit_amount" := JStr (strip (py_str unit_amount)) ]}
    !! "amount_type" = Some (JStr "metered_unit")
    /\ set_if_some "cap_amount" v
      {[ "amount_type" := JStr "metered_unit";
         "meter_id" := JStr (strip (default "" meter_id));
         "price_currency" := JStr "usd";
         "unit_amount" := JStr (strip (py_str unit_amount)) ]}
    !! "meter_id" = Some (JStr (strip (default "" meter_id)))
    /\ set_if_some "cap_amount" v
      {[ "amount_type" := JStr "metered_unit";
         "meter_id" := JStr (strip (default "" meter_id));
         "price_currency" := JStr "usd";
         "unit_amount" := JStr (strip (py_str unit_amount)) ]}
    !! "unit_amount" = Some (JStr (strip (py_str unit_amount)))) as Hl.
  { by intros [c|]. }
  destruct (Hl (_as_int_cents cap_amount)) as (H1 & H2 & H3).
  unfold Rules.metered_spec.
  split; [|split; [exact H1|split; [exact H2|split; [exact H3|]]]].
  - intros k Hk. unfold Rules.payload_of, Rules.payload_core.
    destruct (Rules.supplied_str org_id);
      rewrite ?lookup_insert; repeat case_decide; subst; try done;
      by rewrite !lookup_singleton_ne by congruence.
  - intros s -> Hf. rewrite H2. cbn [default from_option id].
    by rewrite (fullmatch_strip _ _ Hf).
Qed.

(** C7.  For price_type custom: a minimum, maximum or preset that
    parses below 50 makes the builder raise, with the below-50 error
    once name and plan are valid; a minimum that exceeds the maximum
    makes it raise, with the min-exceeds-max error once name and plan
    are valid and no amount parses below 50; otherwise an otherwise
    valid input succeeds, and the base price specification has each
    bound that parses under its key, unmodified, and no key at all for
    a bound that does not parse, as is every bound that is not
    supplied. *)
Theorem custom_price_rules :
  (below (_as_int_cents custom_min) 50 || below (_as_int_cents custom_max) 50
   || below (_as_int_cents custom_preset) 50 = true ->
   exists e,
     build_product_payload_simple name description plan "custom"
       fixed_amount custom_min custom_max custom_preset
       org_id enable_metered meter_id unit_amount cap_amount = Raise e
     /\ (Rules.name name = None -> Rules.plan plan = None ->
         e = CustomBelowFifty))
  /\ (forall lo hi,
        _as_int_cents custom_min = Some lo ->
        _as_int_cents custom_max = Some hi -> hi < lo ->
        exists e,
          build_product_payload_simple name description plan "custom"
            fixed_amount custom_min custom_max custom_preset
            org_id enable_metered meter_id unit_amount cap_amount = Raise e
          /\ (Rules.name name = None -> Rules.plan plan = None ->
              50 <= hi -> below (_as_int_cents custom_preset) 50 = false ->
              e = CustomMinExceedsMax))
  /\ (below (_as_int_cents custom_min) 50 || below (_as_int_cents custom_max) 50
      || below (_as_int_cents custom_preset) 50 = false ->
      (forall lo hi, _as_int_cents custom_min = Some lo ->
                     _as_int_cents custom_max = Some hi -> lo <= hi) ->
      Rules.name name = None -> Rules.plan plan = None ->
      Rules.metered plan enable_metered meter_id unit_amount cap_amount = None ->
      Rules.org org_id = None ->
      exists (payload base : dict) (rest : list json),
        build_product_payload_simple name description plan "custom"
          fixed_amount custom_min custom_max custom_preset
          org_id enable_metered meter_id unit_amount cap_amount = Ok payload
        /\ payload !! "prices" = Some (JList (JObj base :: rest))
        /\ base !! "amount_type" = Some (JStr "custom")
        /\ base !! "minimum_amount" = JInt <$> _as_int_cents custom_min
        /\ base !! "maximum_amount" = JInt <$> _as_int_cents custom_max
        /\ base !! "preset_amount" = JInt <$> _as_int_cents custom_preset)
  /\ (forall v, Rules.supplied v = false -> _as_int_cents v = None).
Proof.
  split; [|split; [|split]].
  - intros H. rewrite build_by_rules. unfold Rules.first_violation.
    destruct (Rules.name name); [by eexists|].
    destruct (Rules.plan plan); [by eexists|].
    unfold Rules.price.
    rewrite bool_decide_eq_false_2, bool_decide_eq_true_2 by done.
    rewrite H. by eexists.
  - intros lo hi Hlo Hhi Hlt. rewrite build_by_rules.
    unfold Rules.first_violation.
    destruct (Rules.name name); [by eexists|].
    destruct (Rules.plan plan); [by eexists|].
    unfold Rules.price.
    rewrite bool_decide_eq_false_2, bool_decide_eq_true_2 by done.
    rewrite Hlo, Hhi. cbn [below].
    destruct ((lo <? 50) || (hi <? 50)
              || below (_as_int_cents custom_preset) 50) eqn:Hb.
    + eexists. split; [reflexivity|]. intros _ _ H50 Hpre.
      rewrite Hpre in Hb. lia.
    + replace (lo <=? hi) with false by lia. by eexists.
  - intros Hb Hle Hn Hp Hm Ho. rewrite build_by_rules.
    unfold Rules.first_violation. rewrite Hn, Hp, Hm, Ho.
    unfold Rules.price.
    rewrite bool_decide_eq_false_2, bool_decide_eq_true_2 by done.
    rewrite Hb.
    assert (match _as_int_cents custom_min, _as_int_cents custom_max with
            | Some lo, Some hi =>
                if lo <=? hi then None else Some CustomMinExceedsMax
            | _, _ => None
            end = None) as ->.
    { destruct (_as_int_cents custom_min) as [lo|],
               (_as_int_cents custom_max) as [hi|]; try done.
      specialize (Hle lo hi eq_refl eq_refl).
      by replace (lo <=? hi) with true by lia. }
    eexists _, _, _. split; [reflexivity|].
    rewrite payload_of_prices. split; [reflexivity|].
    unfold Rules.base_spec.
    rewrite bool_decide_eq_false_2, bool_decide_eq_true_2 by done.
    by destruct (_as_int_cents custom_min), (_as_int_cents custom_max),
      (_as_int_cents custom_preset).
  - intros v. unfold Rules.supplied, Rules.blank, _as_int_cents.
    destruct v; [done| |]; by intros ->%negb_false_iff.
Qed.

(** C8.  A name that is missing or whose trimmed length is below 3
    makes the builder raise the name-length error, whatever the other
    fields are.  In general the builder raises the error of the first
    rule violated in the order name, plan, price-type fields, metered
    block, organization id, and returns the whole payload when no rule
    is violated. *)
Theorem first_violated_rule_wins :
  (name = None \/ (exists n, name = Some n /\ len (strip n) < 3) ->
   build_product_payload_simple name description plan price_type
     fixed_amount custom_min custom_max custom_preset
     org_id enable_metered meter_id unit_amount cap_amount
   = Raise NameTooShort)
  /\ build_product_payload_simple name description plan price_type
       fixed_amount custom_min custom_max custom_preset
       org_id enable_metered meter_id unit_amount cap_amount
     = match Rules.first_violation name description plan price_type
               fixed_amount custom_min custom_max custom_preset
               org_id enable_metered meter_id unit_amount cap_amount with
       | Some e => Raise e
       | None => Ok (Rules.payload_of name description plan price_type
                       fixed_amount custom_min custom_max custom_preset
                       org_id enable_metered meter_id unit_amount cap_amount)
       end.
Proof.
  split; [|apply build_by_rules].
  rewrite build_by_rules. unfold Rules.first_violation, Rules.name.
  intros [->|(n & -> & Hn)]; [done|].
  by replace (3 <=? len (strip n)) with false by lia.
Qed.

(** C10, as amended.  In every payload the builder returns the name is
    the trimmed input name, and the description key is present: it is
    null when the input description is missing or empty, and every
    other description, one of white space included, is carried as it
    is, not trimmed.  The organization_id key is absent when org_id is
    missing, empty or blank. *)
Theorem name_and_description_fields (payload : dict) :
  build_product_payload_simple name description plan price_type
    fixed_amount custom_min custom_max custom_preset
    org_id enable_metered meter_id unit_amount cap_amount = Ok payload ->
  (exists n, name = Some n /\ payload !! "name" = Some (JStr (strip n)))
  /\ payload !! "description"
     = Some (match description with
             | Some (String c d) => JStr (String c d)
             | _ => JNull
             end)
  /\ (Rules.supplied_str org_id = false -> payload !! "organization_id" = None).
Proof.
  rewrite build_by_rules.
  destruct (Rules.first_violation _ _ _ _ _ _ _ _ _ _ _ _ _) eqn:Hv; [done|].
  intros [= <-].
  rewrite payload_of_name, payload_of_description, payload_of_org.
  split; [|split].
  - unfold Rules.first_violation, Rules.name in Hv.
    destruct name as [n|]; [|done]. by exists n.
  - by destruct description as [[|c d]|].
  - by intros ->.
Qed.

End builder_claims.

(** ** The claims on the gateway *)

Section gateway_claims.
Import PyStr.

Variables (self : PolarAPI) (method endpoint : string) (data : option json).

(** C3, as amended.  A call with a supported method sends exactly one
    request, and on every network: a 2xx response with an empty (or
    blank) body gives a payload that holds the status field alone; a
    response with a status from 400 to 599, 404 for one, gives an error
    record whose status code is the status received and whose body is
    the text received; a failure of the transport that carries no
    response gives an error record whose status code and body are
    null.  A call with an unsupported method returns the local error
    at once and sends nothing. *)
Theorem gateway_results :
  (Gateway.supported method = true ->
   exists req : Request,
     forall net : network,
       snd (run net (_make_request self method endpoint data)) = [req]
       /\ (forall r, net req = inr r ->
             200 <= status_code r < 300 -> Rules.blank (text r) = true ->
             fst (run net (_make_request self method endpoint data))
             = inr (JObj {[ "status" := JInt (status_code r) ]}))
       /\ (forall r, net req = inr r ->
             400 <= status_code r < 600 ->
             fst (run net (_make_request self method endpoint data))
             = inr (JObj {[ "error" := JStr (requests.http_error_msg r);
                            "status_code" := JInt (status_code r);
                            "body" := JStr (text r) ]}))
       /\ (forall e, net req = inl e -> exc_response e = None ->
             fst (run net (_make_request self method endpoint data))
             = inr (JObj {[ "error" := JStr (exc_str e);
                            "status_code" := JNull;
                            "body" := JNull ]})))
  /\ (Gateway.supported method = false ->
      _make_request self method endpoint data
      = Return (JObj {[ "error" := JStr ("Unsupported method " ++ method) ]})
      /\ forall net : network,
           snd (run net (_make_request self method endpoint data)) = []).
Proof.
  split.
  - intros Hs.
    destruct (make_request_supported self method endpoint data Hs)
      as [req Hreq].
    exists req. intros net.
    rewrite (Hreq net). cbn [fst snd]. split; [done|].
    unfold Gateway.outcome_of, Gateway.escapes, Gateway.result_of,
      Gateway.is_http_error, Gateway.error_record.
    split; [|split].
    + intros r -> Hr Hb.
      replace ((400 <=? status_code r) && (status_code r <? 600))
        with false by lia.
      by rewrite Hb.
    + intros r -> Hr.
      by replace ((400 <=? status_code r) && (status_code r <? 600))
        with true by lia.
    + by intros e -> ->.
  - intros Hs.
    rewrite (make_request_unsupported self method endpoint data Hs).
    split; [done|].
    by intros net.
Qed.


End gateway_claims.

(** ** Concrete runs: counterexamples and witnesses *)

Section concrete_runs.
Import Sample.

(** C2, counterexample.  The claim reads parsing as the integer itself,
    or the decimal value truncated toward zero.  The integer amount
    9007199254740993 (2^53 + 1) is accepted, and the price carries
    9007199254740992: the text of the amount goes through a binary64
    float, which has no odd integer above 2^53.  The amount
    49.99999999999999999999 truncates to 49, below 50, and yet is
    accepted with price 50, the float nearest to it. *)
Lemma fixed_amount_is_rounded :
  Rules.exact_cents (PInt 9007199254740993) = Some 9007199254740993
  /\ build_product_payload_simple (Some "Pro Plan") None "month" "fixed"
       (PInt 9007199254740993) PNone PNone PNone None false None PNone PNone
     = Ok {[ "name" := JStr "Pro Plan";
             "description" := JNull;
             "recurring_interval" := JStr "month";
             "prices" := JList [JObj {[ "amount_type" := JStr "fixed";
                                        "price_currency" := JStr "usd";
                                        "price_amount" := JInt 9007199254740992 ]}] ]}
  /\ Rules.exact_cents (PStr "49.99999999999999999999") = Some 49
  /\ build_product_payload_simple (Some "Pro Plan") None "month" "fixed"
       (PStr "49.99999999999999999999") PNone PNone PNone None false None
       PNone PNone
     = Ok {[ "name" := JStr "Pro Plan";
             "description" := JNull;
             "recurring_interval" := JStr "month";
             "prices" := JList [JObj {[ "amount_type" := JStr "fixed";
                                        "price_currency" := JStr "usd";
                                        "price_amount" := JInt 50 ]}] ]}.
Proof. repeat split; vm_compute; reflexivity. Qed.

(** C4, counterexample.  The cap_amount "abc" is supplied and does not
    parse; the builder does not raise: it returns the payload, and the
    metered specification has no cap_amount. *)
Lemma unparsable_cap_is_ignored :
  Rules.supplied (PStr "abc") = true
  /\ _as_int_cents (PStr "abc") = None
  /\ build_product_payload_simple (Some "Pro Plan") None "month" "free"
       PNone PNone PNone PNone None true (Some uuid) (PStr "0.05") (PStr "abc")
     = Ok {[ "name" := JStr "Pro Plan";
             "description" := JNull;
             "recurring_interval" := JStr "month";
             "prices" := JList [JObj {[ "amount_type" := JStr "free" ]};
                                JObj {[ "amount_type" := JStr "metered_unit";
                                        "meter_id" := JStr uuid;
                                        "price_currency" := JStr "usd";
                                        "unit_amount" := JStr "0.05" ]}] ]}.
Proof. repeat split; vm_compute; reflexivity. Qed.

(** C10, counterexample.  A description of two spaces is blank, and the
    payload carries it as a string, not as null. *)
Lemma blank_description_is_kept :
  Rules.blank "  " = true
  /\ exists payload : dict,
       build_product_payload_simple (Some "Pro Plan") (Some "  ") "month" "free"
         PNone PNone PNone PNone None false None PNone PNone = Ok payload
       /\ payload !! "description" = Some (JStr "  ")
       /\ payload !! "description" <> Some JNull.
Proof.
  split; [reflexivity|]. eexists. split; [vm_compute; reflexivity|].
  split; [vm_compute; reflexivity|]. vm_compute. discriminate.
Qed.

(** C3, counterexample.  A 304 response is not a 2xx response, and the
    gateway returns the status-only payload for it, which is no error
    record and has no status_code. *)
Lemma not_modified_is_no_error :
  let r := response 304 "Not Modified" "" (DecodeError "Expecting value") in
  ~ (200 <= status_code r < 300)
  /\ exists result,
       fst (run (always (inr r)) (_make_request api "GET" "/products/" None))
       = inr result
       /\ result = JObj {[ "status" := JInt 304 ]}
       /\ is_error_record result = false.
Proof.
  cbn zeta. split; [cbn; lia|].
  eexists. split; [vm_compute; reflexivity|]. split; reflexivity.
Qed.


(** C1, witness: a one_time product with a fixed price and no metering. *)
Lemma one_time_metered_always_fails_witness :
  let payload : dict :=
    {[ "name" := JStr "Pro Plan"; "description" := JNull;
       "recurring_interval" := JNull;
       "prices" := JList [JObj {[ "amount_type" := JStr "fixed";
                                  "price_currency" := JStr "usd";
                                  "price_amount" := JInt 999 ]}] ]} in
  build_product_payload_simple (Some "Pro Plan") None "one_time" "fixed"
    (PInt 999) PNone PNone PNone None false None PNone PNone = Ok payload
  /\ payload !! "recurring_interval" = Some JNull
  /\ exists base : dict,
       payload !! "prices" = Some (JList [JObj base])
       /\ base !! "amount_type" <> Some (JStr "metered_unit").
Proof.
  cbn zeta.
  assert (build_product_payload_simple (Some "Pro Plan") None "one_time" "fixed"
            (PInt 999) PNone PNone PNone None false None PNone PNone
          = Ok {[ "name" := JStr "Pro Plan"; "description" := JNull;
                  "recurring_interval" := JNull;
                  "prices" := JList [JObj {[ "amount_type" := JStr "fixed";
                                             "price_currency" := JStr "usd";
                                             "price_amount" := JInt 999 ]}] ]})
    as H by (vm_compute; reflexivity).
  split; [exact H|].
  exact (proj2 (one_time_metered_always_fails (Some "Pro Plan") None "fixed"
                  (PInt 999) PNone PNone PNone None false None PNone PNone)
           _ H).
Defined.

(** C2, witness: "999.99" parses to 999 and is accepted with 999;
    "49.9" parses to 49 and is refused. *)
Lemma fixed_amount_threshold_witness :
  _as_int_cents (PStr "999.99") = Some 999
  /\ (exists (payload : dict) (rest : list json),
        build_product_payload_simple (Some "Pro Plan") None "month" "fixed"
          (PStr "999.99") PNone PNone PNone None false None PNone PNone
        = Ok payload
        /\ payload !! "prices"
           = Some (JList (JObj {[ "amount_type" := JStr "fixed";
                                  "price_currency" := JStr "usd";
                                  "price_amount" := JInt 999 ]} :: rest)))
  /\ _as_int_cents (PStr "49.9") = Some 49
  /\ (exists e,
        build_product_payload_simple (Some "Pro Plan") None "month" "fixed"
          (PStr "49.9") PNone PNone PNone None false None PNone PNone
        = Raise e
        /\ (Rules.name (Some "Pro Plan") = None -> Rules.plan "month" = None ->
            e = FixedAmountInvalid)).
Proof.
  assert (_as_int_cents (PStr "999.99") = Some 999) as H1
    by (vm_compute; reflexivity).
  assert (_as_int_cents (PStr "49.9") = Some 49) as H2
    by (vm_compute; reflexivity).
  split; [exact H1|]. split.
  - apply (proj2 (proj2 (proj2 (proj2
      (fixed_amount_threshold (Some "Pro Plan") None "month" (PStr "999.99")
         PNone PNone PNone None false None PNone PNone)))) 999 H1);
      [lia|reflexivity..].
  - split; [exact H2|].
    apply (proj1 (proj2 (proj2 (proj2
      (fixed_amount_threshold (Some "Pro Plan") None "month" (PStr "49.9")
         PNone PNone PNone None false None PNone PNone))))).
    right. exists 49. split; [exact H2|lia].
Defined.

(** C4, witness: the cap_amount "-5" is refused. *)
Lemma cap_amount_rule_witness :
  _as_int_cents (PStr "-5") = Some (-5)
  /\ build_product_payload_simple (Some "Pro Plan") None "month" "free"
       PNone PNone PNone PNone None true (Some uuid) (PStr "0.05") (PStr "-5")
     = Raise CapNegative.
Proof.
  assert (_as_int_cents (PStr "-5") = Some (-5)) as H
    by (vm_compute; reflexivity).
  split; [exact H|].
  apply (proj1 (cap_amount_rule (Some "Pro Plan") None "month" "free"
                  PNone PNone PNone PNone None (Some uuid) (PStr "0.05")
                  (PStr "-5")
                  eq_refl eq_refl ltac:(discriminate) eq_refl
                  eq_refl eq_refl eq_refl) (-5) H).
  lia.
Defined.

(** C5, witness: the org_id "not-a-uuid" is refused. *)
Lemma org_id_rule_witness :
  Rules.supplied_str (Some "not-a-uuid") = true
  /\ _is_uuid (Some "not-a-uuid") = false
  /\ build_product_payload_simple (Some "Pro Plan") None "month" "free"
       PNone PNone PNone PNone (Some "not-a-uuid") false None PNone PNone
     = Raise OrgIdInvalid.
Proof.
  split; [reflexivity|]. split; [reflexivity|].
  assert (build_product_payload_simple (Some "Pro Plan") None "month" "free"
            PNone PNone PNone PNone None false None PNone PNone
          = Ok {[ "name" := JStr "Pro Plan"; "description" := JNull;
                  "recurring_interval" := JStr "month";
                  "prices" := JList [JObj {[ "amount_type" := JStr "free" ]}] ]})
    as H by (vm_compute; reflexivity).
  apply (proj1 (org_id_rule (Some "Pro Plan") None "month" "free"
                  PNone PNone PNone PNone (Some "not-a-uuid") false None
                  PNone PNone _ H));
    reflexivity.
Defined.

(** C6, witness: plan month, a UUID meter id and unit_amount "0.05". *)
Lemma metered_price_appended_witness :
  fullmatch UUID_RE uuid = true
  /\ exists (payload base metered : dict),
       build_product_payload_simple (Some "Pro Plan") None "month" "fixed"
         (PInt 999) PNone PNone PNone None true (Some uuid) (PStr "0.05") PNone
       = Ok payload
       /\ payload !! "prices" = Some (JList [JObj base; JObj metered])
       /\ metered !! "amount_type" = Some (JStr "metered_unit")
       /\ metered !! "meter_id" = Some (JStr uuid)
       /\ metered !! "unit_amount" = Some (JStr "0.05").
Proof.
  split; [reflexivity|].
  assert (build_product_payload_simple (Some "Pro Plan") None "month" "fixed"
            (PInt 999) PNone PNone PNone None false (Some uuid) (PStr "0.05")
            PNone
          = Ok {[ "name" := JStr "Pro Plan"; "description" := JNull;
                  "recurring_interval" := JStr "month";
                  "prices" := JList [JObj {[ "amount_type" := JStr "fixed";
                                             "price_currency" := JStr "usd";
                                             "price_amount" := JInt 999 ]}] ]})
    as H by (vm_compute; reflexivity).
  destruct (metered_price_appended (Some "Pro Plan") None "month" "fixed"
              (PInt 999) PNone PNone PNone None (Some uuid) (PStr "0.05") PNone
              _ (or_introl eq_refl) eq_refl eq_refl eq_refl H)
    as (payload & base & metered & Hb & _ & Hp & _ & Ht & _ & Hu & Hm).
  exists payload, base, metered.
  split; [exact Hb|]. split; [exact Hp|]. split; [exact Ht|].
  split; [exact (Hm uuid eq_refl eq_refl)|exact Hu].
Defined.

(** C7, witness: minimum 100 and maximum 500 are accepted and carried;
    minimum 500 and maximum 100 are refused with the min-exceeds-max
    error. *)
Lemma custom_price_rules_witness :
  (exists (payload base : dict) (rest : list json),
     build_product_payload_simple (Some "Pro Plan") None "month" "custom"
       PNone (PInt 100) (PInt 500) PNone None false None PNone PNone
     = Ok payload
     /\ payload !! "prices" = Some (JList (JObj base :: rest))
     /\ base !! "amount_type" = Some (JStr "custom")
     /\ base !! "minimum_amount" = JInt <$> _as_int_cents (PInt 100)
     /\ base !! "maximum_amount" = JInt <$> _as_int_cents (PInt 500)
     /\ base !! "preset_amount" = JInt <$> _as_int_cents PNone)
  /\ _as_int_cents (PInt 100) = Some 100
  /\ _as_int_cents (PInt 500) = Some 500
  /\ exists e,
       build_product_payload_simple (Some "Pro Plan") None "month" "custom"
         PNone (PInt 500) (PInt 100) PNone None false None PNone PNone
       = Raise e
       /\ (Rules.name (Some "Pro Plan") = None -> Rules.plan "month" = None ->
           50 <= 100 -> below (_as_int_cents PNone) 50 = false ->
           e = CustomMinExceedsMax).
Proof.
  assert (_as_int_cents (PInt 100) = Some 100) as H1
    by (vm_compute; reflexivity).
  assert (_as_int_cents (PInt 500) = Some 500) as H5
    by (vm_compute; reflexivity).
  split; [|split; [exact H1|split; [exact H5|]]].
  - apply (proj1 (proj2 (proj2
      (custom_price_rules (Some "Pro Plan") None "month" PNone
         (PInt 100) (PInt 500) PNone None false None PNone PNone))));
      [vm_compute; reflexivity| |reflexivity..].
    intros lo hi. rewrite H1, H5. intros [= <-] [= <-]. lia.
  - apply (proj1 (proj2
      (custom_price_rules (Some "Pro Plan") None "month" PNone
         (PInt 500) (PInt 100) PNone None false None PNone PNone))
      500 100 H5 H1).
    lia.
Defined.

(** C8, witness: the name " ab " has trimmed length 2; the plan and
    the price type are invalid too, and the name error is the one
    raised. *)
Lemma first_violated_rule_wins_witness :
  PyStr.len (PyStr.strip " ab ") < 3
  /\ build_product_payload_simple (Some " ab ") None "weekly" "tiered"
       PNone PNone PNone PNone (Some "not-a-uuid") true None PNone PNone
     = Raise NameTooShort.
Proof.
  assert (PyStr.len (PyStr.strip " ab ") < 3) as H by (vm_compute; reflexivity).
  split; [exact H|].
  apply (proj1 (first_violated_rule_wins (Some " ab ") None "weekly" "tiered"
                  PNone PNone PNone PNone (Some "not-a-uuid") true None
                  PNone PNone)).
  right. exists " ab ". split; [reflexivity|exact H].
Defined.

(** C10, witness: the name is trimmed, an empty description is null. *)
Lemma name_and_description_fields_witness :
  exists payload : dict,
    build_product_payload_simple (Some "  Pro Plan ") (Some "") "month" "free"
      PNone PNone PNone PNone (Some " ") false None PNone PNone = Ok payload
    /\ (exists n, Some "  Pro Plan " = Some n
                  /\ payload !! "name" = Some (JStr (PyStr.strip n)))
    /\ payload !! "description" = Some JNull
    /\ (Rules.supplied_str (Some " ") = false ->
        payload !! "organization_id" = None).
Proof.
  eexists. split; [vm_compute; reflexivity|].
  apply (name_and_description_fields (Some "  Pro Plan ") (Some "") "month"
           "free" PNone PNone PNone PNone (Some " ") false None PNone PNone).
  vm_compute; reflexivity.
Defined.

(** C3, witness: the method "get" is supported, and a 404 response
    gives the error record with status code 404 and the body received. *)
Lemma gateway_results_witness :
  let r := response 404 "Not Found" "not here" (DecodeError "Expecting value") in
  Gateway.supported "get" = true
  /\ exists req : Request,
       snd (run (always (inr r)) (_make_request api "get" "/products/x/" None))
       = [req]
       /\ fst (run (always (inr r)) (_make_request api "get" "/products/x/" None))
          = inr (JObj {[ "error" := JStr (requests.http_error_msg r);
                         "status_code" := JInt 404;
                         "body" := JStr "not here" ]}).
Proof.
  cbn zeta. split; [reflexivity|].
  destruct (proj1 (gateway_results api "get" "/products/x/" None) eq_refl)
    as [req H].
  exists req.
  destruct (H (always (inr (response 404 "Not Found" "not here"
                              (DecodeError "Expecting value")))))
    as (Hs & _ & H4 & _).
  split; [exact Hs|].
  apply (H4 (response 404 "Not Found" "not here" (DecodeError "Expecting value")));
    [reflexivity|cbn; lia].
Defined.

End concrete_runs.

(** ** More on strings *)

Section more_string_facts.
Import PyStr.

Lemma lstrip_idem s : lstrip (lstrip s) = lstrip s.
Proof.
  induction s as [|c s IH]; [done|]. cbn.
  destruct (isspace c) eqn:Hc; [done|]. cbn. by rewrite Hc.
Qed.

Lemma rstrip_cons c s :
  rstrip (String c s)
  = match rstrip s with
    | EmptyString => if isspace c then EmptyString else String c EmptyString
    | r => String c r
    end.
Proof. reflexivity. Qed.

Lemma rstrip_idem s : rstrip (rstrip s) = rstrip s.
Proof.
  induction s as [|c s IH]; [done|]. rewrite rstrip_cons.
  destruct (rstrip s) as [|d r] eqn:Hr.
  - destruct (isspace c) eqn:Hc; [done|]. cbn. by rewrite Hc.
  - by rewrite rstrip_cons, IH.
Qed.

Lemma strip_comm s : rstrip (lstrip s) = lstrip (rstrip s).
Proof.
  induction s as [|c s IH]; [done|]. rewrite rstrip_cons. cbn [lstrip].
  destruct (isspace c) eqn:Hc.
  - rewrite IH. destruct (rstrip s); cbn [lstrip]; by rewrite ?Hc.
  - rewrite rstrip_cons. destruct (rstrip s); cbn [lstrip]; by rewrite Hc.
Qed.

Lemma strip_idem s : strip (strip s) = strip s.
Proof.
  unfold strip. by rewrite (strip_comm (rstrip s)), lstrip_idem, rstrip_idem.
Qed.

Lemma rstrip_char_app x b :
  rstrip_char x (b ++ String x EmptyString) = rstrip_char x b.
Proof.
  induction b as [|c b IH].
  - change (rstrip_char x (String x EmptyString) = EmptyString).
    cbn [rstrip_char]. by rewrite Ascii.eqb_refl.
  - change (rstrip_char x (String c (b ++ String x EmptyString))
            = rstrip_char x (String c b)).
    cbn [rstrip_char]. by rewrite IH.
Qed.

Lemma string_app_nil (s : string) : EmptyString ++ s = s.
Proof. reflexivity. Qed.

Lemma string_app_cons c (t s : string) : String c t ++ s = String c (t ++ s).
Proof. reflexivity. Qed.

Lemma rstrip_char_no_trailing x s t :
  rstrip_char x s <> t ++ String x EmptyString.
Proof.
  revert t; induction s as [|c s IH]; intros t; cbn [rstrip_char].
  - destruct t; by rewrite ?string_app_nil, ?string_app_cons.
  - destruct (rstrip_char x s) as [|d r] eqn:Hr.
    + destruct (Ascii.eqb_spec c x) as [->|Hc];
        [destruct t; by rewrite ?string_app_nil, ?string_app_cons|].
      destruct t as [|c' t]; rewrite ?string_app_nil, ?string_app_cons;
        [congruence|].
      destruct t; rewrite ?string_app_nil, ?string_app_cons; congruence.
    + destruct t as [|c' t]; rewrite ?string_app_nil, ?string_app_cons;
        [congruence|].
      intros [= -> H]. by apply (IH t).
Qed.

Lemma lstrip_char_no_leading x s t : lstrip_char x s <> String x t.
Proof.
  induction s as [|c s IH]; cbn [lstrip_char]; [done|].
  destruct (Ascii.eqb_spec c x) as [->|Hc]; [done|]. congruence.
Qed.

End more_string_facts.

(** ** More on the gateway: the request sent *)

Section request_facts.
Import PyStr.

Variables (self : PolarAPI) (method endpoint : string) (data : option json).

(** X1.  How the helper routes its arguments: the URL is the base
    without its trailing slashes, a slash, and the endpoint without its
    leading slashes; the headers are those of the client; [data] goes to
    the query parameters for GET and to the JSON body for POST and PUT,
    and DELETE sends no data at all, whatever [data] is. *)
Theorem request_routing (net : network) :
  let u := rstrip_char "/" (base_url self) ++ "/" ++ lstrip_char "/" endpoint in
  let sent := snd (run net (_make_request self method endpoint data)) in
  (upper method = "GET" ->
   sent = [ {| req_verb := GET; req_url := u; req_headers := headers self;
               req_params := data; req_json := None |} ])
  /\ (upper method = "POST" ->
      sent = [ {| req_verb := POST; req_url := u; req_headers := headers self;
                  req_params := None; req_json := data |} ])
  /\ (upper method = "PUT" ->
      sent = [ {| req_verb := PUT; req_url := u; req_headers := headers self;
                  req_params := None; req_json := data |} ])
  /\ (upper method = "DELETE" ->
      sent = [ {| req_verb := DELETE; req_url := u; req_headers := headers self;
                  req_params := None; req_json := None |} ]).
Proof.
  cbn zeta. unfold _make_request.
  repeat split; intros ->; cbn [String.eqb Ascii.eqb Bool.eqb];
    unfold requests.get, requests.post, requests.put, requests.delete;
    by rewrite answered.
Qed.

(** X2.  Exactly one slash at the joint of base URL and endpoint: a
    further leading slash of the endpoint or trailing slash of the base
    URL changes nothing in what the helper does, and the URL sent is a
    base that does not end with a slash, one slash, and a rest that does
    not start with one. *)
Theorem url_joint_has_one_slash :
  _make_request self method (String "/" endpoint) data
  = _make_request self method endpoint data
  /\ _make_request
       {| access_token := access_token self;
          base_url := base_url self ++ "/";
          headers := headers self |} method endpoint data
     = _make_request self method endpoint data
  /\ (Gateway.supported method = true ->
      forall net : network,
      exists (req : Request) (b e : string),
        snd (run net (_make_request self method endpoint data)) = [req]
        /\ req_url req = b ++ "/" ++ e
        /\ (forall t, b <> t ++ "/")
        /\ (forall t, e <> String "/" t)).
Proof.
  split; [reflexivity|]. split.
  - unfold _make_request. cbn [base_url headers].
    by rewrite (rstrip_char_app "/").
  - intros Hs net.
    unfold Gateway.supported in Hs. apply bool_decide_eq_true in Hs.
    rewrite !elem_of_cons, elem_of_nil in Hs.
    pose proof (request_routing net) as (Hg & Hp & Hu & Hd). cbn zeta in *.
    destruct Hs as [H|[H|[H|[H|[]]]]];
      [rewrite (Hg H)|rewrite (Hp H)|rewrite (Hu H)|rewrite (Hd H)];
      (eexists _, _, _; split; [reflexivity|]; split; [reflexivity|]; split;
       [apply rstrip_char_no_trailing|apply lstrip_char_no_leading]).
Qed.

End request_facts.

(** ** The methods of the client *)

Section client_facts.
Import PyStr.

Variable self : PolarAPI.

(** The URL the helper builds for an endpoint. *)
Let url_of (endpoint : string) : string :=
  rstrip_char "/" (base_url self) ++ "/" ++ lstrip_char "/" endpoint.

Lemma make_request_GET (endpoint : string) (data : option json) (net : network) :
  let req := {| req_verb := GET; req_url := url_of endpoint;
                req_headers := headers self;
                req_params := data; req_json := None |} in
  run net (_make_request self "GET" endpoint data)
  = (Gateway.outcome_of (net req), [req]).
Proof. apply answered. Qed.

Lemma make_request_POST (endpoint : string) (data : option json) (net : network) :
  let req := {| req_verb := POST; req_url := url_of endpoint;
                req_headers := headers self;
                req_params := None; req_json := data |} in
  run net (_make_request self "POST" endpoint data)
  = (Gateway.outcome_of (net req), [req]).
Proof. apply answered. Qed.

(** X3.  Each of the six list methods sends exactly one GET request to
    the path of its resource and ends as the helper does on the answer:
    it returns the helper's result, or the exception that escapes the
    helper leaves it.  The query parameters are the empty object when
    the organization id is missing or empty, and the one key
    organization_id otherwise: an empty organization id is never sent. *)
Theorem list_methods_filter (organization_id : option string) (net : network) :
  let params :=
    if truthy organization_id
    then JObj {[ "organization_id" := JStr (default "" organization_id) ]}
    else JObj ∅ in
  let get endpoint :=
    {| req_verb := GET; req_url := url_of endpoint; req_headers := headers self;
       req_params := Some params; req_json := None |} in
  let outcome endpoint :=
    (Gateway.outcome_of (net (get endpoint)), [get endpoint]) in
  run net (Client.list_products self organization_id) = outcome "/products/"
  /\ run net (Client.list_subscriptions self organization_id)
     = outcome "/subscriptions/"
  /\ run net (Client.list_orders self organization_id) = outcome "/orders/"
  /\ run net (Client.list_benefits self organization_id) = outcome "/benefits/"
  /\ run net (Client.list_customers self organization_id) = outcome "/customers/"
  /\ run net (Client.list_webhook_endpoints self organization_id)
     = outcome "/webhooks/endpoints/"
  /\ (forall endpoint,
        Gateway.escapes (net (get endpoint)) = None ->
        outcome endpoint
        = (inr (Gateway.result_of (net (get endpoint))), [get endpoint]))
  /\ (forall d, params = JObj d ->
        d !! "organization_id" <> Some (JStr "")
        /\ d !! "organization_id" <> Some JNull).
Proof.
  cbn zeta. repeat split; try apply make_request_GET.
  { intros endpoint He. by rewrite outcome_of_result. }
  all: destruct organization_id as [[|c s]|]; cbn in H; injection H as <-; done.
Qed.

(** X4.  The checkout body has the five fixed keys, the products being
    the given ids in order, and the key customer_email only when an email
    is given and not empty; the request is one POST to /checkouts/. *)
Theorem create_checkout_body (product_ids : list string) (success_url : string)
    (customer_email : option string) (a b c : bool) (net : network) :
  exists body : dict,
    snd (run net (Client.create_checkout self product_ids success_url
                    customer_email a b c))
    = [ {| req_verb := POST; req_url := url_of "/checkouts/";
           req_headers := headers self;
           req_params := None; req_json := Some (JObj body) |} ]
    /\ body !! "products" = Some (JList (JStr <$> product_ids))
    /\ body !! "success_url" = Some (JStr success_url)
    /\ body !! "allow_discount_codes" = Some (JBool a)
    /\ body !! "require_billing_address" = Some (JBool b)
    /\ body !! "is_business_customer" = Some (JBool c)
    /\ body !! "customer_email"
       = (if truthy customer_email
          then Some (JStr (default "" customer_email)) else None).
Proof.
  unfold Client.create_checkout. eexists. rewrite make_request_POST.
  split; [reflexivity|].
  destruct (truthy customer_email); repeat split; reflexivity.
Qed.


End client_facts.

(** ** The actions of the dashboard *)

Section action_facts.
Import PyStr.

Variable dumps : json -> string.
Variable loads : string -> decoded.
Variable repr : json -> string.
Variable exc_text : json -> string.

(** A program that ends by returning a function of its result: the
    value is mapped, an exception and the requests sent are as they
    were. *)
Lemma run_map {A B} (net : network) (m : io A) (g : A -> B) :
  run net (r ← m; Return (g r))
  = (sum_map id g (fst (run net m)), snd (run net m)).
Proof.
  unfold mbind, io_mbind.
  induction m as [a|e|msg|req k IH]; cbn [run io_bind]; try done.
  rewrite IH. by destruct (run net (k (net req))).
Qed.

(** A handler of every exception that returns at once: the program
    returns, and the requests sent are as they were. *)
Lemma run_try_Exception {A} (net : network) (m : io A) (f : string -> A) :
  run net (try_except_Exception m (fun t => Return (f t)))
  = (inr match fst (run net m) with
         | inl x => f (raised_text x)
         | inr a => a
         end, snd (run net m)).
Proof.
  induction m as [a|e|msg|req k IH]; cbn [run try_except_Exception]; try done.
  rewrite IH. by destruct (run net (k (net req))).
Qed.

Lemma make_request_at_most_one (self : PolarAPI) (method endpoint : string)
    (data : option json) (net : network) :
  Outcome.at_most_one_request net (_make_request self method endpoint data).
Proof.
  unfold Outcome.at_most_one_request.
  destruct (Gateway.supported method) eqn:Hs.
  - destruct (make_request_supported self method endpoint data Hs) as [req H].
    rewrite H. cbn. lia.
  - rewrite (make_request_unsupported self method endpoint data Hs).
    cbn. lia.
Qed.

Lemma make_request_passes_on (self : PolarAPI) (method endpoint : string)
    (data : option json) (net : network) :
  Outcome.passes_on net (_make_request self method endpoint data).
Proof.
  unfold Outcome.passes_on.
  destruct (Gateway.supported method) eqn:Hs.
  - destruct (make_request_supported self method endpoint data Hs) as [req H].
    rewrite H. cbn [fst snd]. intros req' msg [= <-].
    apply outcome_of_escapes.
  - rewrite (make_request_unsupported self method endpoint data Hs).
    intros req' msg [=].
Qed.

(** X6.  What the dashboard shows for each error result of the gateway:
    the message, the status code or None, and the body on a line of its
    own unless the response had no text or there was no response.  The
    JSON printer is not used for any of them. *)
Theorem format_gateway_errors :
  let status (resp : option Response) :=
    match resp with
    | Some r => pretty (status_code r)
    | None => "None"
    end in
  let body (resp : option Response) :=
    match resp with
    | Some r => if truthy (Some (text r))
                then Py.nl ++ "Response body: " ++ text r else ""
    | None => ""
    end in
  let shown (msg : string) (resp : option Response) :=
    "Error: " ++ msg ++ " (status: " ++ status resp ++ ")" ++ body resp in
  (forall e : RequestException,
     format_json_output dumps repr (Gateway.result_of (inl e))
     = shown (exc_str e) (exc_response e))
  /\ (forall r : Response,
        Gateway.is_http_error r = true ->
        format_json_output dumps repr (Gateway.result_of (inr r))
        = shown (requests.http_error_msg r) (Some r))
  /\ (forall (r : Response) (msg : string),
        Gateway.is_http_error r = false -> Rules.blank (text r) = false ->
        json_body r = DecodeError msg ->
        format_json_output dumps repr (Gateway.result_of (inr r))
        = shown msg None)
  /\ (forall method : string,
        format_json_output dumps repr (Gateway.unsupported method)
        = "Error: Unsupported method " ++ method ++ " (status: None)").
Proof.
  cbn zeta.
  assert (forall msg resp,
    format_json_output dumps repr (Gateway.error_record msg resp)
    = "Error: " ++ msg ++ " (status: "
      ++ match resp with
         | Some r => pretty (status_code r)
         | None => "None"
         end ++ ")"
      ++ match resp with
         | Some r => if truthy (Some (text r))
                     then Py.nl ++ "Response body: " ++ text r else ""
         | None => ""
         end) as Hrec.
  { intros msg [r|]; [|reflexivity].
    unfold Gateway.error_record, format_json_output.
    rewrite bool_decide_eq_true_2 by (by eexists).
    change (Py.get _ "body") with (JStr (text r)).
    change (Py.get _ "error") with (JStr msg).
    change (Py.get _ "status_code") with (JInt (status_code r)).
    reflexivity. }
  split; [|split; [|split]].
  - intros e. apply Hrec.
  - intros r Hr. unfold Gateway.result_of. rewrite Hr. apply Hrec.
  - intros r msg Hr Hb Hj. unfold Gateway.result_of. rewrite Hr, Hb, Hj.
    apply Hrec.
  - intros method. reflexivity.
Qed.

(** X7.  Without a token the initialization returns its message, keeps
    the client as it was and sends nothing.  With a token it sends
    exactly one request, a GET of /organizations/ under the base URL of
    the chosen environment that carries the bearer token, and it
    installs the new client whatever the network answers, a failed
    connection included, and a body whose decoding raises: the handler
    of the initialization catches every exception. *)
Theorem initialize_installs_client (polar_api : option PolarAPI)
    (access_token : option string) (use_sandbox : bool) (net : network) :
  (truthy access_token = false ->
   run net (initialize_polar_api repr exc_text polar_api access_token use_sandbox)
   = (inr ("Access token is required", polar_api), []))
  /\ (truthy access_token = true ->
      exists (msg : string) (req : Request),
        run net (initialize_polar_api repr exc_text polar_api access_token
                   use_sandbox)
        = (inr (msg, Some (PolarAPI_init (default "" access_token) use_sandbox)),
           [req])
        /\ req_verb req = GET
        /\ req_url req
           = (if use_sandbox
              then "https://sandbox-api.polar.sh/v1/organizations/"
              else "https://api.polar.sh/v1/organizations/")
        /\ req_headers req !! "Authorization"
           = Some ("Bearer " ++ default "" access_token)
        /\ req_params req = None /\ req_json req = None).
Proof.
  unfold initialize_polar_api. split; intros ->; cbn [negb]; [done|].
  unfold Client.list_organizations.
  pose proof (make_request_GET
                (PolarAPI_init (default "" access_token) use_sandbox)
                "/organizations/" None net) as H. cbv beta zeta in H.
  rewrite run_try_Exception.
  rewrite (run_map net _ (fun orgs => (_, _))), H. cbn [fst snd].
  destruct (Gateway.outcome_of _) as [x|orgs]; cbn [sum_map].
  all: eexists _, _; split; [reflexivity|].
  all: cbn [req_verb req_url req_headers req_params req_json].
  all: repeat split; by destruct use_sandbox.
Qed.

(** X8.  The message of the initialization with a token.  When the
    gateway gives an error record, for a failure of the transport or a
    status from 400 to 599, the message tells the failure with the
    gateway's message and the body received, None for none; when the
    server answers with no error status and a blank body the message is
    "Connected to Polar". *)
Theorem initialize_message (polar_api : option PolarAPI)
    (access_token : option string) (use_sandbox : bool) (net : network) :
  truthy access_token = true ->
  exists req : Request,
    snd (run net (initialize_polar_api repr exc_text polar_api access_token
                    use_sandbox)) = [req]
    /\ forall msg : string,
         fst (run net (initialize_polar_api repr exc_text polar_api access_token
                         use_sandbox))
         = inr (msg, Some (PolarAPI_init (default "" access_token) use_sandbox)) ->
         (forall e, net req = inl e ->
            msg = "ailed to connect: " ++ exc_str e ++ " | body: "
                  ++ match exc_response e with
                     | Some r => text r
                     | None => "None"
                     end)
         /\ (forall r, net req = inr r -> Gateway.is_http_error r = true ->
               msg = "ailed to connect: " ++ requests.http_error_msg r
                     ++ " | body: " ++ text r)
         /\ (forall r, net req = inr r -> Gateway.is_http_error r = false ->
               Rules.blank (text r) = true -> msg = "Connected to Polar").
Proof.
  intros Ht. unfold initialize_polar_api. rewrite Ht. cbn [negb].
  unfold Client.list_organizations.
  pose proof (make_request_GET
                (PolarAPI_init (default "" access_token) use_sandbox)
                "/organizations/" None net) as H. cbv beta zeta in H.
  match type of H with context [net ?r] => set (req := r) in * end.
  exists req. rewrite run_try_Exception.
  rewrite (run_map net _ (fun orgs => (_, _))), H.
  cbn [fst snd]. split; [reflexivity|].
  intros msg Hmsg. split; [|split].
  - intros e Ha. rewrite Ha, outcome_of_exception in Hmsg.
    cbn [sum_map Gateway.result_of] in Hmsg. injection Hmsg as <-.
    by destruct (exc_response e).
  - intros r Ha Hr. rewrite Ha, (outcome_of_http_error r Hr) in Hmsg.
    cbn [sum_map Gateway.result_of] in Hmsg. rewrite Hr in Hmsg.
    by injection Hmsg as <-.
  - intros r Ha Hr Hb. rewrite Ha, (outcome_of_blank r Hb) in Hmsg.
    cbn [sum_map Gateway.result_of] in Hmsg. rewrite Hr, Hb in Hmsg.
    by injection Hmsg as <-.
Qed.

(** X9.  Before the client is initialized no action sends a request, on
    any network and for any arguments. *)
Theorem no_client_no_request (net : network)
    (s1 s2 s3 s4 : option string) (p1 p2 : string) (v1 v2 v3 v4 v5 v6 : pyval)
    (a b c : bool) :
  Outcome.silent net (get_organizations dumps repr None)
  /\ Outcome.silent net (get_organization_details dumps repr None s1)
  /\ Outcome.silent net (get_products dumps repr None s1)
  /\ Outcome.silent net (get_product_details dumps repr None s1)
  /\ Outcome.silent net
       (create_product_simple_action dumps None s1 s2 p1 p2 v1 v2 v3 v4 s3 a s4 v5 v6)
  /\ Outcome.silent net
       (create_checkout_session dumps repr None s1 s2 s3 a b c)
  /\ Outcome.silent net (get_subscriptions dumps repr None s1)
  /\ Outcome.silent net (get_subscription_details dumps repr None s1)
  /\ Outcome.silent net (get_orders dumps repr None s1)
  /\ Outcome.silent net (get_order_details dumps repr None s1)
  /\ Outcome.silent net (get_benefits dumps repr None s1)
  /\ Outcome.silent net (create_new_benefit dumps loads repr None s1 s2 s3 s4)
  /\ Outcome.silent net (get_customers dumps repr None s1)
  /\ Outcome.silent net (get_webhook_endpoints dumps repr None s1)
  /\ Outcome.silent net (create_webhook_endpoint dumps repr None s1 s2 s3).
Proof. repeat split. Qed.

(** X10.  With a client, an action whose required argument is missing
    or empty returns its message and sends nothing: the id of the four
    detail actions, the product ids or the success URL of a checkout,
    the organization id, type or description of a benefit, and the
    organization id, URL or events of a webhook endpoint.  A benefit
    whose properties are given and raise a [JSONDecodeError] sends
    nothing either. *)
Theorem missing_argument_no_request (net : network) (api : PolarAPI)
    (id s1 s2 s3 s4 : option string) (a b c : bool) :
  (truthy id = false ->
   run net (get_organization_details dumps repr (Some api) id)
   = (inr "Organization ID is required", [])
   /\ run net (get_product_details dumps repr (Some api) id)
      = (inr "Product ID is required", [])
   /\ run net (get_subscription_details dumps repr (Some api) id)
      = (inr "Subscription ID is required", [])
   /\ run net (get_order_details dumps repr (Some api) id)
      = (inr "❌ Order ID is required", []))
  /\ (truthy s1 && truthy s2 = false ->
      run net (create_checkout_session dumps repr (Some api) s1 s2 s3 a b c)
      = (inr "Product IDs and success URL are required", []))
  /\ (truthy s1 && truthy s2 && truthy s3 = false ->
      run net (create_new_benefit dumps loads repr (Some api) s1 s2 s3 s4)
      = (inr "❌ Organization ID, type, and description are required", [])
      /\ run net (create_webhook_endpoint dumps repr (Some api) s1 s2 s3)
         = (inr "❌ Organization ID, URL, and events are required", []))
  /\ (truthy s1 && truthy s2 && truthy s3 = true ->
      truthy s4 = true ->
      forall msg : string, loads (default "" s4) = DecodeError msg ->
      run net (create_new_benefit dumps loads repr (Some api) s1 s2 s3 s4)
      = (inr "❌ Invalid JSON in properties field", [])).
Proof.
  split; [|split; [|split]].
  - intros H. unfold get_organization_details, get_product_details,
      get_subscription_details, get_order_details. by rewrite H.
  - intros H. unfold create_checkout_session, Py.all. cbn [forallb].
    rewrite andb_true_r. by rewrite H.
  - intros H. unfold create_new_benefit, create_webhook_endpoint, Py.all.
    cbn [forallb]. rewrite andb_true_r, andb_assoc. by rewrite H.
  - intros H Ht msg Hl. unfold create_new_benefit, Py.all.
    cbn [forallb]. rewrite andb_true_r, andb_assoc. by rewrite H, Ht, Hl.
Qed.

Lemma formatted_at_most_one {A B} (net : network) (m : io A) (g : A -> B) :
  Outcome.at_most_one_request net m ->
  Outcome.at_most_one_request net (r ← m; Return (g r)).
Proof. unfold Outcome.at_most_one_request. by rewrite run_map. Qed.

Lemma handled_at_most_one {A} (net : network) (m : io A) (f : string -> A) :
  Outcome.at_most_one_request net m ->
  Outcome.at_most_one_request net
    (try_except_Exception m (fun t => Return (f t))).
Proof. unfold Outcome.at_most_one_request. by rewrite run_try_Exception. Qed.

Lemma returned_at_most_one {A} (net : network) (x : A) :
  Outcome.at_most_one_request net (Return x).
Proof. unfold Outcome.at_most_one_request. cbn. lia. Qed.

Lemma aborted_at_most_one {A} (net : network) (msg : string) :
  Outcome.at_most_one_request net (Abort msg : io A).
Proof. unfold Outcome.at_most_one_request. cbn. lia. Qed.

Lemma formatted_passes_on {A B} (net : network) (m : io A) (g : A -> B) :
  Outcome.passes_on net m ->
  Outcome.passes_on net (r ← m; Return (g r)).
Proof.
  unfold Outcome.passes_on. rewrite run_map. cbn [fst snd].
  intros H req msg Hs He. by rewrite (H req msg Hs He).
Qed.

Lemma returned_passes_on {A} (net : network) (x : A) :
  Outcome.passes_on net (Return x).
Proof. by intros req msg [=]. Qed.

Lemma aborted_passes_on {A} (net : network) (msg : string) :
  Outcome.passes_on net (Abort msg : io A).
Proof. by intros req msg' [=]. Qed.

Lemma create_action_run (net : network) (api : PolarAPI) (payload : dict)
    (name description : option string) (plan price_type : string)
    (fixed_amount custom_min custom_max custom_preset : pyval)
    (org_id : option string) (enable_metered : bool)
    (meter_id : option string) (unit_amount cap_amount : pyval) :
  build_product_payload_simple name description plan price_type
    fixed_amount custom_min custom_max custom_preset
    org_id enable_metered meter_id unit_amount cap_amount = Ok payload ->
  let req := {| req_verb := POST; req_url := base_url api ++ "/products/";
                req_headers := <["Accept" := "application/json"]> (headers api);
                req_params := None; req_json := Some (JObj payload) |} in
  run net (create_product_simple_action dumps (Some api) name description plan
             price_type fixed_amount custom_min custom_max custom_preset
             org_id enable_metered meter_id unit_amount cap_amount)
  = (inr match net req with
         | inl e => ["❌ Request error: " ++ exc_str e; ""; ""]
         | inr r =>
             [strip (pretty (status_code r) ++ " " ++ reason r);
              dumps match json_body r with
                    | Decoded j => j
                    | _ => JObj {[ "raw" := JStr (text r) ]}
                    end]
         end, [req]).
Proof.
  intros Hb. cbn zeta. unfold create_product_simple_action. rewrite Hb.
  unfold requests.post, requests.call.
  cbn [mbind io_mbind io_bind try_except run].
  destruct (net _) as [e|r]; [reflexivity|].
  cbn [io_bind try_except]. unfold requests.json.
  destruct (json_body r); reflexivity.
Qed.

(** X11.  Every action, initialization included, in every state of the
    client and on every network, sends at most one request, whether it
    returns or an exception leaves it.  The actions that have no handler
    of their own, which are all but the initialization and the creation
    of a product, pass on what escapes the helper: where the answer to
    the one request is a response with no error status and a body that
    is not blank, whose decoding raises an exception that is no
    [RequestException], that exception leaves the action.  A benefit
    whose properties make [json.loads] raise an exception that is no
    [JSONDecodeError] sends nothing, and that exception leaves the
    action. *)
Theorem actions_send_at_most_one_request (net : network)
    (polar_api : option PolarAPI)
    (s1 s2 s3 s4 : option string) (p1 p2 : string) (v1 v2 v3 v4 v5 v6 : pyval)
    (a b c : bool) :
  (Outcome.at_most_one_request net
     (initialize_polar_api repr exc_text polar_api s1 a)
   /\ Outcome.at_most_one_request net
        (create_product_simple_action dumps polar_api s1 s2 p1 p2 v1 v2 v3 v4
           s3 a s4 v5 v6))
  /\ (let both {A} (m : io A) :=
        Outcome.at_most_one_request net m /\ Outcome.passes_on net m in
      both (get_organizations dumps repr polar_api)
      /\ both (get_organization_details dumps repr polar_api s1)
      /\ both (get_products dumps repr polar_api s1)
      /\ both (get_product_details dumps repr polar_api s1)
      /\ both (create_checkout_session dumps repr polar_api s1 s2 s3 a b c)
      /\ both (get_subscriptions dumps repr polar_api s1)
      /\ both (get_subscription_details dumps repr polar_api s1)
      /\ both (get_orders dumps repr polar_api s1)
      /\ both (get_order_details dumps repr polar_api s1)
      /\ both (get_benefits dumps repr polar_api s1)
      /\ both (create_new_benefit dumps loads repr polar_api s1 s2 s3 s4)
      /\ both (get_customers dumps repr polar_api s1)
      /\ both (get_webhook_endpoints dumps repr polar_api s1)
      /\ both (create_webhook_endpoint dumps repr polar_api s1 s2 s3))
  /\ (forall (api : PolarAPI) (msg : string),
        truthy s1 && truthy s2 && truthy s3 = true ->
        truthy s4 = true -> loads (default "" s4) = DecodeRaises msg ->
        run net (create_new_benefit dumps loads repr (Some api) s1 s2 s3 s4)
        = (inl (Other_exception msg), [])).
Proof.
  split; [split|split].
  - unfold initialize_polar_api.
    destruct (truthy s1); cbn [negb]; [|apply returned_at_most_one].
    apply handled_at_most_one.
    apply (formatted_at_most_one net _ (fun orgs => (_, _))).
    apply make_request_at_most_one.
  - destruct polar_api as [api|]; [|apply returned_at_most_one].
    unfold create_product_simple_action.
    destruct (build_product_payload_simple _ _ _ _ _ _ _ _ _ _ _ _ _)
      as [payload|e] eqn:Hb; [|apply returned_at_most_one].
    pose proof (create_action_run net api payload _ _ _ _ _ _ _ _ _ _ _ _ _ Hb)
      as H.
    cbn zeta in H. unfold create_product_simple_action in H. rewrite Hb in H.
    unfold Outcome.at_most_one_request. rewrite H. cbn. lia.
  - cbn zeta.
    unfold get_organizations, get_organization_details, get_products,
      get_product_details, create_checkout_session, get_subscriptions,
      get_subscription_details, get_orders, get_order_details, get_benefits,
      create_new_benefit, get_customers, get_webhook_endpoints,
      create_webhook_endpoint.
    destruct polar_api as [api|].
    2:{ repeat split;
          first [apply returned_at_most_one|apply returned_passes_on]. }
    repeat apply conj.
    all: repeat match goal with
         | |- Outcome.at_most_one_request _ (if ?c then _ else _) => destruct c
         | |- Outcome.at_most_one_request _ (match ?x with _ => _ end) =>
             destruct x eqn:?
         | |- Outcome.passes_on _ (if ?c then _ else _) => destruct c
         | |- Outcome.passes_on _ (match ?x with _ => _ end) =>
             destruct x eqn:?
         end.
    all: first
      [ apply returned_at_most_one
      | apply returned_passes_on
      | apply aborted_at_most_one
      | apply aborted_passes_on
      | apply formatted_at_most_one; apply make_request_at_most_one
      | apply formatted_passes_on; apply make_request_passes_on ].
  - intros api msg H Ht Hl. unfold create_new_benefit, Py.all.
    cbn [forallb]. rewrite andb_true_r, andb_assoc. by rewrite H, Ht, Hl.
Qed.

Lemma stripped_pieces_clean (s x : string) :
  x ∈ Py.stripped_pieces s -> x <> "" /\ strip x = x.
Proof.
  unfold Py.stripped_pieces. intros (y & _ & Hy)%list_elem_of_omap.
  destruct (String.eqb_spec (strip y) "") as [|Hne]; [done|].
  injection Hy as <-. split; [done|apply strip_idem].
Qed.

Lemma checkout_session_run (net : network) (api : PolarAPI)
    (product_ids success_url customer_email : option string) (a b c : bool) :
  truthy product_ids = true -> truthy success_url = true ->
  Py.stripped_pieces (default "" product_ids) <> [] ->
  let body : dict :=
    let data : dict :=
      {[ "products" := JList (JStr <$> Py.stripped_pieces (default "" product_ids));
         "success_url" := JStr (default "" success_url);
         "allow_discount_codes" := JBool a;
         "require_billing_address" := JBool b;
         "is_business_customer" := JBool c ]} in
    if truthy customer_email
    then <["customer_email" := JStr (default "" customer_email)]> data
    else data in
  let req := {| req_verb := POST;
                req_url := rstrip_char "/" (base_url api) ++ "/"
                           ++ lstrip_char "/" "/checkouts/";
                req_headers := headers api;
                req_params := None; req_json := Some (JObj body) |} in
  run net (create_checkout_session dumps repr (Some api) product_ids
             success_url customer_email a b c)
  = (sum_map id (format_json_output dumps repr)
       (Gateway.outcome_of (net req)), [req]).
Proof.
  intros Hp Hs Hi. cbn zeta. unfold create_checkout_session, Py.all.
  cbn [forallb]. rewrite Hp, Hs. cbn [andb negb].
  destruct (Py.stripped_pieces (default "" product_ids)) as [|x l] eqn:Hl;
    [done|].
  rewrite run_map. unfold Client.create_checkout.
  by rewrite (make_request_POST api "/checkouts/" _ net).
Qed.

(** X12.  A checkout is requested only for a list of product ids that
    is not empty and whose ids are trimmed and not empty: the ids sent
    are the trimmed pieces of the input between commas, blank pieces
    dropped, in order; when no piece is left the action returns its
    message and sends nothing. *)
Theorem checkout_product_ids (net : network) (api : PolarAPI)
    (product_ids success_url customer_email : option string) (a b c : bool) :
  truthy product_ids = true -> truthy success_url = true ->
  let ids := Py.stripped_pieces (default "" product_ids) in
  Forall (fun id => id <> "" /\ strip id = id) ids
  /\ (ids = [] ->
      run net (create_checkout_session dumps repr (Some api) product_ids
                 success_url customer_email a b c)
      = (inr "At least one product ID is required", []))
  /\ (ids <> [] ->
      exists (req : Request) (body : dict),
        snd (run net (create_checkout_session dumps repr (Some api) product_ids
                        success_url customer_email a b c)) = [req]
        /\ req_verb req = POST
        /\ req_json req = Some (JObj body)
        /\ body !! "products" = Some (JList (JStr <$> ids))
        /\ body !! "success_url" = Some (JStr (default "" success_url))).
Proof.
  intros Hp Hs. cbn zeta. split; [|split].
  - apply Forall_forall. intros x. apply stripped_pieces_clean.
  - intros Hi. unfold create_checkout_session, Py.all. cbn [forallb].
    by rewrite Hp, Hs, Hi.
  - intros Hi.
    rewrite (checkout_session_run net api _ _ customer_email a b c Hp Hs Hi).
    eexists _, _. split; [reflexivity|]. split; [reflexivity|].
    split; [reflexivity|]. by destruct (truthy customer_email).
Qed.

(** X13.  A webhook endpoint is requested whenever organization id, URL
    and events are given and not empty: the events sent are the trimmed
    pieces of the input between commas, blank pieces dropped, and the
    request goes out even when no piece is left, with an empty list of
    events. *)
Theorem webhook_events (net : network) (api : PolarAPI)
    (org_id u events : option string) :
  truthy org_id = true -> truthy u = true -> truthy events = true ->
  let event_list := Py.stripped_pieces (default "" events) in
  Forall (fun ev => ev <> "" /\ strip ev = ev) event_list
  /\ exists (req : Request) (body : dict),
       snd (run net (create_webhook_endpoint dumps repr (Some api) org_id u events))
       = [req]
       /\ req_verb req = POST
       /\ req_json req = Some (JObj body)
       /\ body !! "events" = Some (JList (JStr <$> event_list))
       /\ (event_list = [] -> body !! "events" = Some (JList []))
       /\ body !! "organization_id" = Some (JStr (default "" org_id))
       /\ body !! "url" = Some (JStr (default "" u)).
Proof.
  intros Ho Hu He. cbn zeta. split.
  - apply Forall_forall. intros x. apply stripped_pieces_clean.
  - unfold create_webhook_endpoint, Py.all. cbn [forallb].
    rewrite Ho, Hu, He. cbn [andb negb].
    unfold Client.create_webhook_endpoint.
    pose proof (make_request_POST api "/webhooks/endpoints/"
      (Some (JObj {[ "organization_id" := JStr (default "" org_id);
                     "url" := JStr (default "" u);
                     "events" := JList (JStr <$> Py.stripped_pieces
                                                   (default "" events)) ]}))
      net) as H.
    cbv beta zeta in H.
    rewrite (run_map net _ (format_json_output dumps repr)), H.
    eexists _, _. split; [reflexivity|]. split; [reflexivity|].
    split; [reflexivity|]. split; [reflexivity|].
    split; [by intros ->|]. split; reflexivity.
Qed.

(** X14.  A benefit with all three required fields: properties that are
    missing or empty are sent as the empty object and nothing is
    decoded; properties that are given are sent as they decode. *)
Theorem benefit_properties (net : network) (api : PolarAPI)
    (org_id benefit_type description properties_json : option string) :
  truthy org_id = true -> truthy benefit_type = true ->
  truthy description = true ->
  forall properties : json,
    (if truthy properties_json then loads (default "" properties_json)
     else Decoded (JObj ∅)) = Decoded properties ->
  exists (req : Request) (body : dict),
    snd (run net (create_new_benefit dumps loads repr (Some api) org_id
                    benefit_type description properties_json)) = [req]
    /\ req_verb req = POST
    /\ req_json req = Some (JObj body)
    /\ body !! "properties" = Some properties
    /\ (truthy properties_json = false -> properties = JObj ∅)
    /\ body !! "organization_id" = Some (JStr (default "" org_id))
    /\ body !! "type" = Some (JStr (default "" benefit_type))
    /\ body !! "description" = Some (JStr (default "" description)).
Proof.
  intros Ho Hb Hd properties Hp.
  unfold create_new_benefit, Py.all. cbn [forallb].
  rewrite Ho, Hb, Hd. cbn [andb negb]. rewrite Hp.
  unfold Client.create_benefit.
  pose proof (make_request_POST api "/benefits/"
    (Some (JObj {[ "organization_id" := JStr (default "" org_id);
                   "type" := JStr (default "" benefit_type);
                   "description" := JStr (default "" description);
                   "properties" := properties ]})) net) as H.
  cbv beta zeta in H.
  rewrite (run_map net _ (format_json_output dumps repr)), H.
  eexists _, _. split; [reflexivity|]. split; [reflexivity|].
  split; [reflexivity|]. split; [reflexivity|].
  split; [|repeat split].
  intros Ht. rewrite Ht in Hp. by injection Hp as <-.
Qed.

(** X15.  Creating a product validates before it touches the network:
    when the builder raises, the action returns the text of the error
    and two empty strings and sends nothing; when the builder returns a
    payload, the action sends exactly one request, a POST of that very
    payload as JSON to the base URL followed by /products/, with the
    headers of the client and an Accept header. *)
Theorem product_validated_before_network (net : network) (api : PolarAPI)
    (name description : option string) (plan price_type : string)
    (fixed_amount custom_min custom_max custom_preset : pyval)
    (org_id : option string) (enable_metered : bool)
    (meter_id : option string) (unit_amount cap_amount : pyval) :
  (forall e,
     build_product_payload_simple name description plan price_type
       fixed_amount custom_min custom_max custom_preset
       org_id enable_metered meter_id unit_amount cap_amount = Raise e ->
     run net (create_product_simple_action dumps (Some api) name description
                plan price_type fixed_amount custom_min custom_max custom_preset
                org_id enable_metered meter_id unit_amount cap_amount)
     = (inr [message e; ""; ""], []))
  /\ (forall payload,
        build_product_payload_simple name description plan price_type
          fixed_amount custom_min custom_max custom_preset
          org_id enable_metered meter_id unit_amount cap_amount = Ok payload ->
        snd (run net (create_product_simple_action dumps (Some api) name
                        description plan price_type fixed_amount custom_min
                        custom_max custom_preset org_id enable_metered meter_id
                        unit_amount cap_amount))
        = [ {| req_verb := POST; req_url := base_url api ++ "/products/";
               req_headers := <["Accept" := "application/json"]> (headers api);
               req_params := None; req_json := Some (JObj payload) |} ]).
Proof.
  split.
  - intros e He. unfold create_product_simple_action. by rewrite He.
  - intros payload Hb.
    by rewrite (create_action_run net api payload _ _ _ _ _ _ _ _ _ _ _ _ _ Hb).
Qed.


(** X17.  The dry run and the real action agree: with a client, the
    action sends a request exactly when the dry run returns its two
    strings, and the JSON body it sends is the payload the dry run
    prints; when the dry run returns three strings, the first is the
    error text the action returns, after a cross mark. *)
Theorem dry_run_agrees (net : network) (api : PolarAPI)
    (name description : option string) (plan price_type : string)
    (fixed_amount custom_min custom_max custom_preset : pyval)
    (org_id : option string) (enable_metered : bool)
    (meter_id : option string) (unit_amount cap_amount : pyval) :
  let dry := generate_curl_simple_action dumps (Some api) name description plan
               price_type fixed_amount custom_min custom_max custom_preset
               org_id enable_metered meter_id unit_amount cap_amount in
  let real := run net (create_product_simple_action dumps (Some api) name
                         description plan price_type fixed_amount custom_min
                         custom_max custom_preset org_id enable_metered meter_id
                         unit_amount cap_amount) in
  (exists (payload : dict) (req : Request),
     dry = ["DRY RUN — cURL generated only"; dumps (JObj payload)]
     /\ snd real = [req] /\ req_json req = Some (JObj payload))
  \/ (exists msg : string,
        dry = ["❌ " ++ msg; ""; ""] /\ real = (inr [msg; ""; ""], [])).
Proof.
  cbn zeta. unfold generate_curl_simple_action.
  destruct (build_product_payload_simple _ _ _ _ _ _ _ _ _ _ _ _ _)
    as [payload|e] eqn:Hb.
  - left. rewrite (create_action_run net api payload _ _ _ _ _ _ _ _ _ _ _ _ _ Hb).
    by eexists _, _.
  - right. unfold create_product_simple_action. rewrite Hb. by eexists.
Qed.

End action_facts.

(** ** Whole numbers go through the conversion unchanged *)

Section int_round_trip.
Import PyStr PyNum.

Lemma is_digit_cases (c : ascii) :
  is_digit c = true ->
  c ∈ ["0"; "1"; "2"; "3"; "4"; "5"; "6"; "7"; "8"; "9"]%char.
Proof.
  destruct c as [[] [] [] [] [] [] [] []]; vm_compute; try discriminate;
    intros _; set_solver.
Qed.

Lemma pretty_N_char_digit (d : N) :
  (d < 10)%N ->
  is_digit (pretty_N_char d) = true /\ digit_val (pretty_N_char d) = Z.of_N d.
Proof.
  intros H.
  assert (d = 0 \/ d = 1 \/ d = 2 \/ d = 3 \/ d = 4 \/ d = 5 \/ d = 6
          \/ d = 7 \/ d = 8 \/ d = 9)%N as Hd by lia.
  repeat destruct Hd as [->|Hd]; try subst d; by vm_compute.
Qed.

(** A property that holds for a text still holds once the digits of a
    number are put before it. *)
Lemma pretty_N_go_ind (P : string -> Prop) :
  (forall c s, is_digit c = true -> P s -> P (String c s)) ->
  forall (x : N) (s : string), P s -> P (pretty_N_go x s).
Proof.
  intros Hstep x. induction (N.lt_wf_0 x) as [x _ IH]. intros s Hs.
  destruct (decide (0 < x)%N) as [Hx|Hx].
  - rewrite pretty_N_go_step by done. apply IH; [by apply N.div_lt|].
    apply Hstep; [|done]. apply pretty_N_char_digit. by apply N.mod_lt.
  - replace x with 0%N by lia. by rewrite pretty_N_go_0.
Qed.

(** Reading back the digits of a number: the value read is the number
    after the digits read before, and the rest of the text is left. *)
Lemma digits_pretty_N_go (x : N) (s : string) :
  exists k : Z,
    0 <= k /\ ((0 < x)%N -> 0 < k)
    /\ forall acc n,
         digits acc n (pretty_N_go x s)
         = digits (acc * 10 ^ k + Z.of_N x) (n + k) s.
Proof.
  revert s. induction (N.lt_wf_0 x) as [x _ IH]. intros s.
  destruct (decide (0 < x)%N) as [Hx|Hx].
  - rewrite pretty_N_go_step by done.
    destruct (IH (x `div` 10)%N (N.div_lt x 10 Hx eq_refl)
                (String (pretty_N_char (x `mod` 10)) s)) as (k & Hk & _ & H).
    destruct (pretty_N_char_digit (x `mod` 10)%N) as [Hd Hv];
      [by apply N.mod_lt|].
    exists (k + 1). split; [lia|]. split; [lia|].
    intros acc n. rewrite H. cbn [digits]. rewrite Hd, Hv.
    f_equal; [|lia].
    rewrite Z.pow_add_r, Z.pow_1_r by lia.
    pose proof (N.div_mod x 10 ltac:(lia)) as Hdm.
    apply (f_equal Z.of_N) in Hdm.
    rewrite N2Z.inj_add, N2Z.inj_mul in Hdm. lia.
  - replace x with 0%N by lia. rewrite pretty_N_go_0.
    exists 0. split; [lia|]. split; [lia|].
    intros acc n. f_equal; cbn; lia.
Qed.

Lemma pretty_pos_digits (p : positive) :
  exists k : Z, 0 < k /\ digits 0 0 (pretty (Npos p)) = (Zpos p, k, "").
Proof.
  unfold pretty, pretty_N. rewrite decide_False by done.
  destruct (digits_pretty_N_go (Npos p) "") as (k & _ & Hk & H).
  exists k. split; [apply Hk; lia|]. rewrite H. cbn [digits Z.of_N].
  by rewrite Z.mul_0_l, !Z.add_0_l.
Qed.

Lemma floor_log2_whole (p : Z) : 0 < p -> floor_log2 p 1 = Z.log2 p.
Proof.
  intros Hp. unfold floor_log2. change (Z.log2 1) with 0. rewrite Z.sub_0_r.
  pose proof (Z.log2_nonneg p) as He.
  destruct (Z.log2_spec p Hp) as [Hlo _].
  rewrite (Z.max_r (- Z.log2 p) 0), (Z.max_l (Z.log2 p) 0) by lia.
  change (2 ^ 0) with 1.
  by replace (p * 1 <? 1 * 2 ^ Z.log2 p) with false by lia.
Qed.

(** A whole number up to 2^53 is a binary64 value: rounding leaves it
    as it is. *)
Lemma round_binary64_exact (p : Z) :
  0 < p <= 2 ^ 53 ->
  exists N k : Z,
    round_binary64 p 1 = Some (N, k)
    /\ (if 0 <=? k then N * 2 ^ k else N / 2 ^ (- k)) = p.
Proof.
  intros Hp.
  assert (0 <= Z.log2 p <= 53) as He.
  { split; [apply Z.log2_nonneg|].
    rewrite <- (Z.log2_pow2 53) by lia. apply Z.log2_le_mono. lia. }
  destruct (Z.log2_spec p ltac:(lia)) as [Hlo Hhi].
  unfold round_binary64. rewrite floor_log2_whole by lia.
  rewrite (Z.max_l (Z.log2 p) (-1022)) by lia.
  destruct (decide (Z.log2 p = 53)) as [E|E].
  - rewrite E in *. replace p with (2 ^ 53) by lia.
    eexists _, _. split; vm_compute; reflexivity.
  - set (e := Z.log2 p) in *.
    rewrite (Z.max_l (- (e - 52)) 0), (Z.max_r (e - 52) 0) by lia.
    change (1 * 2 ^ 0) with 1.
    unfold round_half_even. rewrite Z.div_1_r, Z.mod_1_r.
    change (2 * 0 <? 1) with true. cbv iota.
    assert (0 < 2 ^ (- (e - 52))) as Hpos by (apply Z.pow_pos_nonneg; lia).
    destruct (0 <=? e - 52) eqn:Hk.
    + assert (e = 52) as E52 by lia. rewrite E52 in *.
      change (- (52 - 52)) with 0. change (52 - 52) with 0.
      change (2 ^ 0) with 1. rewrite !Z.mul_1_r.
      assert (2 ^ 53 < 2 ^ 1024) by (apply Z.pow_lt_mono_r; lia).
      replace (2 ^ 1024 <=? p) with false by lia.
      eexists _, _. split; [reflexivity|]. cbn. lia.
    + cbn [andb]. eexists _, _. split; [reflexivity|]. rewrite Hk.
      by rewrite Z.div_mul by lia.
Qed.

Lemma digit_char_facts (c : ascii) :
  is_digit c = true ->
  isspace c = false /\ Ascii.eqb c "_" = false
  /\ Ascii.eqb c "-" = false /\ Ascii.eqb c "+" = false
  /\ Ascii.eqb c "." = false
  /\ Ascii.eqb (lower_ascii_char c) "i" = false
  /\ Ascii.eqb (lower_ascii_char c) "n" = false.
Proof.
  intros H%is_digit_cases. rewrite !elem_of_cons, elem_of_nil in H.
  repeat destruct H as [->|H]; try done; by vm_compute.
Qed.

Lemma drop_underscores_nil (prev : option ascii) :
  prev <> Some "_"%char -> drop_underscores prev "" = Some "".
Proof.
  destruct prev as [[[] [] [] [] [] [] [] []]|]; done.
Qed.

Lemma drop_underscores_cons (prev : option ascii) (c : ascii) (s : string) :
  prev <> Some "_"%char -> Ascii.eqb c "_" = false ->
  drop_underscores prev (String c s)
  = String c <$> drop_underscores (Some c) s.
Proof.
  intros Hp Hc. cbn [drop_underscores]. rewrite Hc.
  destruct prev as [[[] [] [] [] [] [] [] []]|]; done.
Qed.

(** The text of a positive number: what each step of [float] does on
    it. *)
Lemma pretty_pos_text (p : positive) :
  exists (c : ascii) (t : string),
    pretty (Npos p) = String c t /\ is_digit c = true
    /\ lstrip (String c t) = String c t /\ rstrip (String c t) = String c t
    /\ forall prev, prev <> Some "_"%char ->
         drop_underscores prev (String c t) = Some (String c t).
Proof.
  unfold pretty, pretty_N. rewrite decide_False by done.
  rewrite pretty_N_go_step by lia.
  set (c0 := pretty_N_char (N.pos p `mod` 10)).
  assert (is_digit c0 = true) as Hc0
    by (apply pretty_N_char_digit; by apply N.mod_lt).
  pose proof (pretty_N_go_ind
    (fun s => exists c t, s = String c t /\ is_digit c = true
                /\ lstrip s = s /\ rstrip s = s
                /\ forall prev, prev <> Some "_"%char ->
                     drop_underscores prev s = Some s)) as Hind.
  destruct (Hind) with (x := (N.pos p `div` 10)%N) (s := String c0 "")
    as (c & t & Ht & Hc & Hl & Hr & Hd).
  - intros c s Hc (c' & t' & -> & Hc' & Hl & Hr & Hd).
    destruct (digit_char_facts c Hc) as (Hsp & Hu & _).
    exists c, (String c' t'). split; [done|]. split; [done|].
    split; [cbn [lstrip]; by rewrite Hsp|].
    split; [rewrite rstrip_cons; by rewrite Hr|].
    intros prev Hprev. rewrite drop_underscores_cons by done.
    rewrite Hd; [done|]. intros [= ->]. by rewrite Ascii.eqb_refl in Hu.
  - destruct (digit_char_facts c0 Hc0) as (Hsp & Hu & _).
    exists c0, "". split; [done|]. split; [done|].
    split; [cbn [lstrip]; by rewrite Hsp|].
    split; [cbn [rstrip]; by rewrite Hsp|].
    intros prev Hprev. rewrite drop_underscores_cons by done.
    rewrite drop_underscores_nil; [done|].
    intros [= ->]. by rewrite Ascii.eqb_refl in Hu.
  - rewrite Ht. exists c, t. by rewrite <- Ht.
Qed.

Lemma sign_digit (c : ascii) (t : string) :
  is_digit c = true -> sign (String c t) = (false, String c t).
Proof.
  intros H%is_digit_cases. rewrite !elem_of_cons, elem_of_nil in H.
  repeat destruct H as [->|H]; done.
Qed.

(** What [float] and then [int] make of the digits of a whole number up
    to 2^53, after the sign is read. *)
Lemma digits_to_int (neg : bool) (p : positive) (c : ascii) (t : string) :
  Zpos p <= 2 ^ 53 ->
  pretty (Npos p) = String c t -> is_digit c = true ->
  (let w := lower_ascii (String c t) in
   if String.eqb w "inf" || String.eqb w "infinity" then Some (Inf neg)
   else if String.eqb w "nan" then Some NaN
   else '(m, x) ← decimal (String c t); Some (float_of_decimal neg m x))
  ≫= int
  = Some (if neg then - Zpos p else Zpos p).
Proof.
  intros Hp Ht Hc. cbn zeta.
  destruct (digit_char_facts c Hc) as (_ & _ & _ & _ & Hdot & Hi & Hn).
  cbn [lower_ascii String.eqb]. rewrite Hi, Hn. cbn [andb orb].
  destruct (pretty_pos_digits p) as (k & Hk & Hd). rewrite Ht in Hd.
  unfold decimal. rewrite Hd.
  replace (0 <? k + 0) with true by lia.
  cbn [exponent mbind option_bind].
  unfold float_of_decimal. change (Z.pos p =? 0) with false. cbv iota.
  change (10 ^ Z.max (0 - 0) 0) with 1. change (10 ^ Z.max (- (0 - 0)) 0) with 1.
  rewrite Z.mul_1_r.
  destruct (round_binary64_exact (Zpos p) ltac:(lia)) as (N & k' & -> & Hv).
  cbn [int mbind option_bind]. by rewrite Hv.
Qed.

(** X18.  A whole amount of magnitude up to 2^53, as the number fields
    hand it over, is read back as itself: its text goes through the
    float conversion and the truncation unchanged. *)
Theorem whole_amounts_are_exact (z : Z) :
  - 2 ^ 53 <= z <= 2 ^ 53 -> _as_int_cents (PInt z) = Some z.
Proof.
  intros Hz. destruct z as [|p|p]; [by vm_compute| |].
  - unfold _as_int_cents, py_str.
    destruct (pretty_pos_text p) as (c & t & Ht & Hc & Hl & Hr & Hd).
    change (pretty (Zpos p)) with (pretty (Npos p)). rewrite Ht.
    assert (strip (String c t) = String c t) as Hs
      by (unfold strip; by rewrite Hr, Hl).
    rewrite Hs. cbn [String.eqb]. unfold float at 1. rewrite Hs.
    rewrite Hd by done. cbn [mbind option_bind].
    rewrite sign_digit by done.
    apply (digits_to_int false p c t); [lia|done..].
  - unfold _as_int_cents, py_str.
    destruct (pretty_pos_text p) as (c & t & Ht & Hc & Hl & Hr & Hd).
    change (pretty (Zneg p)) with (String "-" (pretty (Npos p))). rewrite Ht.
    assert (strip (String "-" (String c t)) = String "-" (String c t)) as Hs.
    { unfold strip. rewrite rstrip_cons, Hr. reflexivity. }
    rewrite Hs. cbn [String.eqb Ascii.eqb]. unfold float at 1. rewrite Hs.
    rewrite drop_underscores_cons by done. rewrite Hd by done.
    cbn [fmap option_fmap option_map mbind option_bind sign].
    apply (digits_to_int true p c t); [lia|done..].
Qed.

End int_round_trip.

(** ** White space around the inputs *)

Section surrounding_space.
Import PyStr.

Lemma as_int_cents_trim (v : pyval) : _as_int_cents (trim_val v) = _as_int_cents v.
Proof.
  destruct v; [done| |done]. unfold _as_int_cents. cbn [trim_val py_str].
  by rewrite strip_idem.
Qed.

Lemma py_str_trim (v : pyval) : strip (py_str (trim_val v)) = strip (py_str v).
Proof. destruct v; [done| |done]. cbn [trim_val py_str]. apply strip_idem. Qed.

Lemma supplied_trim (v : pyval) : Rules.supplied (trim_val v) = Rules.supplied v.
Proof.
  destruct v; [done| |done]. unfold Rules.supplied, Rules.blank.
  cbn [trim_val py_str]. by rewrite strip_idem.
Qed.

Lemma is_uuid_trim (o : option string) : _is_uuid (strip <$> o) = _is_uuid o.
Proof. destruct o; [|done]. unfold _is_uuid.
  cbn [fmap option_fmap option_map default from_option id].
  by rewrite strip_idem. Qed.

Lemma supplied_str_trim (o : option string) :
  Rules.supplied_str (strip <$> o) = Rules.supplied_str o.
Proof.
  destruct o; [|done]. unfold Rules.supplied_str, Rules.blank.
  cbn [fmap option_fmap option_map]. by rewrite strip_idem.
Qed.

Lemma strip_default_trim (o : option string) :
  strip (default "" (strip <$> o)) = strip (default "" o).
Proof.
  destruct o; [|done]. cbn [fmap option_fmap option_map default from_option id].
  apply strip_idem.
Qed.

(** X19.  White space around the name, the organization id, the meter id
    and the amounts never changes what the builder does: it raises the
    same error or returns the same payload as for the trimmed inputs. *)
Theorem builder_ignores_surrounding_space
    (name description : option string) (plan price_type : string)
    (fixed_amount custom_min custom_max custom_preset : pyval)
    (org_id : option string) (enable_metered : bool)
    (meter_id : option string) (unit_amount cap_amount : pyval) :
  build_product_payload_simple (strip <$> name) description plan price_type
    (trim_val fixed_amount) (trim_val custom_min) (trim_val custom_max) (trim_val custom_preset)
    (strip <$> org_id) enable_metered (strip <$> meter_id)
    (trim_val unit_amount) (trim_val cap_amount)
  = build_product_payload_simple name description plan price_type
      fixed_amount custom_min custom_max custom_preset
      org_id enable_metered meter_id unit_amount cap_amount.
Proof.
  rewrite !build_by_rules.
  unfold Rules.first_violation, Rules.payload_of, Rules.payload_core,
    Rules.prices_of, Rules.base_spec, Rules.metered_spec, Rules.price,
    Rules.metered, Rules.org.
  rewrite !as_int_cents_trim, !py_str_trim, !supplied_trim, !is_uuid_trim,
    !supplied_str_trim, !strip_default_trim.
  assert (Rules.name (strip <$> name) = Rules.name name) as ->.
  { destruct name; [|done]. unfold Rules.name.
    cbn [fmap option_fmap option_map]. by rewrite strip_idem. }
  reflexivity.
Qed.

End surrounding_space.

(** ** Concrete runs of the properties above *)

(** X1, witness: a DELETE drops its data. *)
Lemma request_routing_witness :
  PyStr.upper "delete" = "DELETE"
  /\ snd (run Demo.down (_make_request Sample.api "delete" "/products/x/"
                           (Some JNull)))
     = [ {| req_verb := DELETE;
            req_url := PyStr.rstrip_char "/" (base_url Sample.api) ++ "/"
                       ++ PyStr.lstrip_char "/" "/products/x/";
            req_headers := headers Sample.api;
            req_params := None; req_json := None |} ].
Proof.
  split; [reflexivity|].
  pose proof (request_routing Sample.api "delete" "/products/x/" (Some JNull)
                Demo.down) as H.
  cbv zeta in H. destruct H as (_ & _ & _ & H). apply H. reflexivity.
Defined.

(** X2, witness: the URL of a GET of //products/. *)
Lemma url_joint_has_one_slash_witness :
  Gateway.supported "GET" = true
  /\ exists (req : Request) (b e : string),
       snd (run Demo.down (_make_request Sample.api "GET" "//products/" None))
       = [req]
       /\ req_url req = b ++ "/" ++ e
       /\ (forall t, b <> t ++ "/")
       /\ (forall t, e <> String "/" t).
Proof.
  split; [reflexivity|].
  destruct (url_joint_has_one_slash Sample.api "GET" "//products/" None)
    as (_ & _ & H).
  exact (H eq_refl Demo.down).
Defined.

(** X3, witness: an empty organization id gives empty parameters. *)
Lemma list_methods_filter_witness :
  (∅ : dict) !! "organization_id" <> Some (JStr "")
  /\ (∅ : dict) !! "organization_id" <> Some JNull.
Proof.
  pose proof (list_methods_filter Sample.api (Some "") Demo.down) as H.
  cbv zeta in H. destruct H as (_ & _ & _ & _ & _ & _ & _ & H).
  exact (H ∅ eq_refl).
Defined.


(** X6, witness: what is shown for a 404. *)
Lemma format_gateway_errors_witness :
  Gateway.is_http_error Demo.not_found = true
  /\ format_json_output Demo.dumps Demo.repr
       (Gateway.result_of (inr Demo.not_found))
     = "Error: " ++ requests.http_error_msg Demo.not_found
       ++ " (status: 404)" ++ Py.nl ++ "Response body: not here".
Proof.
  split; [reflexivity|].
  pose proof (format_gateway_errors Demo.dumps Demo.repr) as H.
  cbv zeta in H. destruct H as (_ & H & _).
  exact (H Demo.not_found eq_refl).
Defined.

(** X7, witness: a token and a network that is down. *)
Lemma initialize_installs_client_witness :
  PyStr.truthy (Some "polar_oat_token") = true
  /\ exists (msg : string) (req : Request),
       run Demo.down (initialize_polar_api Demo.repr Demo.exc_text None
                        (Some "polar_oat_token") true)
       = (inr (msg, Some (PolarAPI_init "polar_oat_token" true)), [req])
       /\ req_verb req = GET.
Proof.
  split; [reflexivity|].
  destruct (proj2 (initialize_installs_client Demo.repr Demo.exc_text None
                     (Some "polar_oat_token") true Demo.down) eq_refl)
    as (msg & req & H & Hv & _).
  exists msg, req. split; [exact H|exact Hv].
Defined.

(** X8, witness: the same run sends its one request. *)
Lemma initialize_message_witness :
  PyStr.truthy (Some "polar_oat_token") = true
  /\ exists req : Request,
       snd (run Demo.down (initialize_polar_api Demo.repr Demo.exc_text None
                             (Some "polar_oat_token") true)) = [req].
Proof.
  split; [reflexivity|].
  destruct (initialize_message Demo.repr Demo.exc_text None
              (Some "polar_oat_token") true Demo.down eq_refl) as (req & H & _).
  exists req. exact H.
Defined.

(** X10, witness: an empty organization id. *)
Lemma missing_argument_no_request_witness :
  PyStr.truthy (Some "") = false
  /\ run Demo.down (get_organization_details Demo.dumps Demo.repr
                      (Some Sample.api) (Some ""))
     = (inr "Organization ID is required", []).
Proof.
  split; [reflexivity|].
  destruct (missing_argument_no_request Demo.dumps Demo.loads Demo.repr
              Demo.down Sample.api (Some "") None None None None
              false false false) as (H & _).
  exact (proj1 (H eq_refl)).
Defined.

(** X11, witness: the same body leaves [get_organizations] with the
    exception of the decoder, after its one request. *)
Lemma actions_send_at_most_one_request_witness :
  let net := Sample.always (inr Sample.nested) in
  let req := {| req_verb := GET;
                req_url := "https://sandbox-api.polar.sh/v1/organizations/";
                req_headers := headers Sample.api;
                req_params := None; req_json := None |} in
  snd (run net (get_organizations Demo.dumps Demo.repr (Some Sample.api)))
  = [req]
  /\ Gateway.escapes (net req) = Some Sample.recursion_msg
  /\ fst (run net (get_organizations Demo.dumps Demo.repr (Some Sample.api)))
     = inl (Other_exception Sample.recursion_msg).
Proof.
  cbv zeta.
  assert (snd (run (Sample.always (inr Sample.nested))
                 (get_organizations Demo.dumps Demo.repr (Some Sample.api)))
          = [ {| req_verb := GET;
                 req_url := "https://sandbox-api.polar.sh/v1/organizations/";
                 req_headers := headers Sample.api;
                 req_params := None; req_json := None |} ]) as Hs
    by (vm_compute; reflexivity).
  assert (Gateway.escapes (inr Sample.nested) = Some Sample.recursion_msg)
    as He by (vm_compute; reflexivity).
  split; [exact Hs|]. split; [exact He|].
  pose proof (actions_send_at_most_one_request Demo.dumps Demo.loads Demo.repr
                Demo.exc_text (Sample.always (inr Sample.nested))
                (Some Sample.api) None None None None "" ""
                PNone PNone PNone PNone PNone PNone false false false) as H.
  cbv zeta in H. destruct H as (_ & ((_ & Hp) & _) & _).
  exact (Hp _ _ Hs He).
Defined.

(** X12, witness: two ids among blanks. *)
Lemma checkout_product_ids_witness :
  Py.stripped_pieces " a , ,b " = ["a"; "b"]
  /\ exists (req : Request) (body : dict),
       snd (run Demo.down
              (create_checkout_session Demo.dumps Demo.repr (Some Sample.api)
                 (Some " a , ,b ") (Some "https://example.org/ok") None
                 true false false)) = [req]
       /\ req_json req = Some (JObj body)
       /\ body !! "products" = Some (JList [JStr "a"; JStr "b"]).
Proof.
  split; [reflexivity|].
  pose proof (checkout_product_ids Demo.dumps Demo.repr Demo.down Sample.api
                (Some " a , ,b ") (Some "https://example.org/ok") None
                true false false eq_refl eq_refl) as H.
  cbv zeta in H. destruct H as (_ & _ & H).
  destruct (H ltac:(discriminate)) as (req & body & Hs & _ & Hj & Hp & _).
  exists req, body. split; [exact Hs|]. split; [exact Hj|exact Hp].
Defined.

(** X13, witness: events of separators only still go out, empty. *)
Lemma webhook_events_witness :
  Py.stripped_pieces " , " = []
  /\ exists (req : Request) (body : dict),
       snd (run Demo.down
              (create_webhook_endpoint Demo.dumps Demo.repr (Some Sample.api)
                 (Some Sample.uuid) (Some "https://example.org/hook")
                 (Some " , "))) = [req]
       /\ req_json req = Some (JObj body)
       /\ body !! "events" = Some (JList []).
Proof.
  split; [reflexivity|].
  pose proof (webhook_events Demo.dumps Demo.repr Demo.down Sample.api
                (Some Sample.uuid) (Some "https://example.org/hook")
                (Some " , ") eq_refl eq_refl eq_refl) as H.
  cbv zeta in H.
  destruct H as (_ & req & body & Hs & _ & Hj & _ & He & _).
  exists req, body. split; [exact Hs|]. split; [exact Hj|exact (He eq_refl)].
Defined.

(** X14, witness: no properties given. *)
Lemma benefit_properties_witness :
  exists (req : Request) (body : dict),
    snd (run Demo.down
           (create_new_benefit Demo.dumps Demo.loads Demo.repr (Some Sample.api)
              (Some Sample.uuid) (Some "custom") (Some "Early access") None))
    = [req]
    /\ req_json req = Some (JObj body)
    /\ body !! "properties" = Some (JObj ∅).
Proof.
  destruct (benefit_properties Demo.dumps Demo.loads Demo.repr Demo.down
              Sample.api (Some Sample.uuid) (Some "custom")
              (Some "Early access") None eq_refl eq_refl eq_refl
              (JObj ∅) eq_refl)
    as (req & body & Hs & _ & Hj & Hp & _).
  exists req, body. split; [exact Hs|]. split; [exact Hj|exact Hp].
Defined.

(** X15, witness: a name of two characters never reaches the network. *)
Lemma product_validated_before_network_witness :
  build_product_payload_simple (Some "ab") None "month" "free"
    PNone PNone PNone PNone None false None PNone PNone = Raise NameTooShort
  /\ run Demo.down
       (create_product_simple_action Demo.dumps (Some Sample.api)
          (Some "ab") None "month" "free" PNone PNone PNone PNone None false
          None PNone PNone)
     = (inr [message NameTooShort; ""; ""], []).
Proof.
  assert (build_product_payload_simple (Some "ab") None "month" "free"
            PNone PNone PNone PNone None false None PNone PNone
          = Raise NameTooShort) as H by reflexivity.
  split; [exact H|].
  exact (proj1 (product_validated_before_network Demo.dumps Demo.down Sample.api
                  (Some "ab") None "month" "free" PNone PNone PNone PNone
                  None false None PNone PNone) NameTooShort H).
Defined.

(** X18, witness: the default amount of the form. *)
Lemma whole_amounts_are_exact_witness : _as_int_cents (PInt 999) = Some 999.
Proof.
  apply whole_amounts_are_exact. split; by vm_compute.
Defined.

